(** * KTX-Software: lib/basis_transcode.cpp

    A shallow embedding of the Basis Universal (ETC1S) and UASTC transcoding
    entry point of libktx, [ktxTexture2_TranscodeBasis], and of its two
    workers [ktxTexture2_transcodeEtc1s] and [ktxTexture2_transcodeUastc].

    Unsigned C integers are integers of [Z] with the wrap-around written out
    ([u32], [u64]); arrays are lists read and written by index; a pointer
    that may be null is an [option].  The functions of libktx and of the
    Basis Universal transcoder that are only declared in headers are the
    methods of three interfaces ([KtxHeaders], [KtxLib], [BasisTranscoder]). *)

From Stdlib Require Import ZArith List Bool Lia.
From stdpp Require Import base decidable option list.

Local Open Scope Z_scope.

(** ** Machine integers *)

Definition u32 (x : Z) : Z := x mod 2 ^ 32.
Definition u64 (x : Z) : Z := x mod 2 ^ 64.

(** Conversion of a 32-bit pattern to [int32_t] (two's complement). *)
Definition to_int32 (x : Z) : Z :=
  if u32 x <? 2 ^ 31 then u32 x else u32 x - 2 ^ 32.

(** The [MAX] macro. *)
Definition MAX (a b : Z) : Z := if a >? b then a else b.

(** [getBlockWidth] / [getBlockHeight]: (w + (bw - 1)) / bw in uint32_t. *)
Definition getBlockWidth (w bw : Z) : Z := u32 (w + u32 (bw - 1)) / bw.
Definition getBlockHeight (h bh : Z) : Z := u32 (h + u32 (bh - 1)) / bh.

(** [isPow2] on uint32_t: x && ((x & (x - 1U)) == 0U). *)
Definition isPow2 (x : Z) : bool :=
  negb (x =? 0) && (Z.land x (u32 (x - 1)) =? 0).

(** The [uint64_t] overload of [isPow2], line 71. *)
Definition isPow2_u64 (x : Z) : bool :=
  negb (x =? 0) && (Z.land x (u64 (x - 1)) =? 0).

(** ** Enumerations of ktx.h and vkformat_enum.h *)

Inductive KTX_error_code : Set :=
  | KTX_SUCCESS
  | KTX_FILE_DATA_ERROR
  | KTX_FILE_READ_ERROR
  | KTX_FILE_SEEK_ERROR
  | KTX_FILE_UNEXPECTED_EOF
  | KTX_INVALID_OPERATION
  | KTX_INVALID_VALUE
  | KTX_OUT_OF_MEMORY
  | KTX_TRANSCODE_FAILED
  | KTX_UNSUPPORTED_FEATURE.

#[global] Instance KTX_error_code_eq_dec : EqDecision KTX_error_code.
Proof. solve_decision. Defined.

(** The transcode targets named in this file; any other value of the C enum
    is [KTX_TTF_other]. *)
Inductive ktx_transcode_fmt_e : Set :=
  | KTX_TTF_ETC1_RGB
  | KTX_TTF_ETC2_RGBA
  | KTX_TTF_BC1_RGB
  | KTX_TTF_BC3_RGBA
  | KTX_TTF_BC4_R
  | KTX_TTF_BC5_RG
  | KTX_TTF_BC7_RGBA
  | KTX_TTF_PVRTC1_4_RGB
  | KTX_TTF_PVRTC1_4_RGBA
  | KTX_TTF_ASTC_4x4_RGBA
  | KTX_TTF_PVRTC2_4_RGB
  | KTX_TTF_PVRTC2_4_RGBA
  | KTX_TTF_ETC2_EAC_R11
  | KTX_TTF_ETC2_EAC_RG11
  | KTX_TTF_RGBA32
  | KTX_TTF_RGB565
  | KTX_TTF_BGR565
  | KTX_TTF_RGBA4444
  | KTX_TTF_ETC
  | KTX_TTF_BC1_OR_3
  | KTX_TTF_other (code : Z).

#[global] Instance ktx_transcode_fmt_e_eq_dec : EqDecision ktx_transcode_fmt_e.
Proof. solve_decision. Defined.

Inductive VkFormat : Set :=
  | VK_FORMAT_UNDEFINED
  | VK_FORMAT_ETC2_R8G8B8_SRGB_BLOCK
  | VK_FORMAT_ETC2_R8G8B8_UNORM_BLOCK
  | VK_FORMAT_ETC2_R8G8B8A8_SRGB_BLOCK
  | VK_FORMAT_ETC2_R8G8B8A8_UNORM_BLOCK
  | VK_FORMAT_EAC_R11_UNORM_BLOCK
  | VK_FORMAT_EAC_R11G11_UNORM_BLOCK
  | VK_FORMAT_BC1_RGB_SRGB_BLOCK
  | VK_FORMAT_BC1_RGB_UNORM_BLOCK
  | VK_FORMAT_BC3_SRGB_BLOCK
  | VK_FORMAT_BC3_UNORM_BLOCK
  | VK_FORMAT_BC4_UNORM_BLOCK
  | VK_FORMAT_BC5_UNORM_BLOCK
  | VK_FORMAT_PVRTC1_4BPP_SRGB_BLOCK_IMG
  | VK_FORMAT_PVRTC1_4BPP_UNORM_BLOCK_IMG
  | VK_FORMAT_PVRTC2_4BPP_SRGB_BLOCK_IMG
  | VK_FORMAT_PVRTC2_4BPP_UNORM_BLOCK_IMG
  | VK_FORMAT_BC7_SRGB_BLOCK
  | VK_FORMAT_BC7_UNORM_BLOCK
  | VK_FORMAT_ASTC_4x4_SRGB_BLOCK
  | VK_FORMAT_ASTC_4x4_UNORM_BLOCK
  | VK_FORMAT_R5G6B5_UNORM_PACK16
  | VK_FORMAT_B5G6R5_UNORM_PACK16
  | VK_FORMAT_R4G4B4A4_UNORM_PACK16
  | VK_FORMAT_R8G8B8A8_SRGB
  | VK_FORMAT_R8G8B8A8_UNORM.

#[global] Instance VkFormat_eq_dec : EqDecision VkFormat.
Proof. solve_decision. Defined.

(** The colour-space variant a format tag names: the tags ending in
    [_SRGB] / [_SRGB_BLOCK] are the sRGB ones. *)
Definition VkFormat_is_srgb (f : VkFormat) : bool :=
  match f with
  | VK_FORMAT_ETC2_R8G8B8_SRGB_BLOCK
  | VK_FORMAT_ETC2_R8G8B8A8_SRGB_BLOCK
  | VK_FORMAT_BC1_RGB_SRGB_BLOCK
  | VK_FORMAT_BC3_SRGB_BLOCK
  | VK_FORMAT_PVRTC1_4BPP_SRGB_BLOCK_IMG
  | VK_FORMAT_PVRTC2_4BPP_SRGB_BLOCK_IMG
  | VK_FORMAT_BC7_SRGB_BLOCK
  | VK_FORMAT_ASTC_4x4_SRGB_BLOCK
  | VK_FORMAT_R8G8B8A8_SRGB => true
  | _ => false
  end.

(** Supercompression tag: none, Basis Universal (palette based), other. *)
Inductive ktxSupercmpScheme : Set :=
  | KTX_SS_NONE
  | KTX_SS_BASIS_UNIVERSAL
  | KTX_SS_other (code : Z).

#[global] Instance ktxSupercmpScheme_eq_dec : EqDecision ktxSupercmpScheme.
Proof. solve_decision. Defined.

(** ** Format mapping (the two switches of [ktxTexture2_TranscodeBasis]) *)

(** First switch, lines 204-221: "Do some format mapping." *)
Definition map_outputFormat (hasAlpha : bool) (outputFormat : ktx_transcode_fmt_e)
  : ktx_transcode_fmt_e :=
  match outputFormat with
  | KTX_TTF_BC1_OR_3 => if hasAlpha then KTX_TTF_BC3_RGBA else KTX_TTF_BC1_RGB
  | KTX_TTF_ETC => if hasAlpha then KTX_TTF_ETC2_RGBA else KTX_TTF_ETC1_RGB
  | KTX_TTF_PVRTC1_4_RGBA =>
      if hasAlpha then KTX_TTF_PVRTC1_4_RGBA else KTX_TTF_PVRTC1_4_RGB
  | KTX_TTF_PVRTC2_4_RGBA =>
      if hasAlpha then KTX_TTF_PVRTC2_4_RGBA else KTX_TTF_PVRTC2_4_RGB
  | _ => outputFormat
  end.

(** Second switch, lines 223-286; [None] is the [default] branch, which
    returns [KTX_INVALID_VALUE]. *)
Definition select_vkFormat (srgb : bool) (outputFormat : ktx_transcode_fmt_e)
  : option VkFormat :=
  match outputFormat with
  | KTX_TTF_ETC1_RGB =>
      Some (if srgb then VK_FORMAT_ETC2_R8G8B8_SRGB_BLOCK
            else VK_FORMAT_ETC2_R8G8B8_UNORM_BLOCK)
  | KTX_TTF_ETC2_RGBA =>
      Some (if srgb then VK_FORMAT_ETC2_R8G8B8A8_SRGB_BLOCK
            else VK_FORMAT_ETC2_R8G8B8A8_UNORM_BLOCK)
  | KTX_TTF_ETC2_EAC_R11 => Some VK_FORMAT_EAC_R11_UNORM_BLOCK
  | KTX_TTF_ETC2_EAC_RG11 => Some VK_FORMAT_EAC_R11G11_UNORM_BLOCK
  | KTX_TTF_BC1_RGB =>
      Some (if srgb then VK_FORMAT_BC1_RGB_SRGB_BLOCK
            else VK_FORMAT_BC1_RGB_UNORM_BLOCK)
  | KTX_TTF_BC3_RGBA =>
      Some (if srgb then VK_FORMAT_BC3_SRGB_BLOCK else VK_FORMAT_BC3_UNORM_BLOCK)
  | KTX_TTF_BC4_R => Some VK_FORMAT_BC4_UNORM_BLOCK
  | KTX_TTF_BC5_RG => Some VK_FORMAT_BC5_UNORM_BLOCK
  | KTX_TTF_PVRTC1_4_RGB
  | KTX_TTF_PVRTC1_4_RGBA =>
      Some (if srgb then VK_FORMAT_PVRTC1_4BPP_SRGB_BLOCK_IMG
            else VK_FORMAT_PVRTC1_4BPP_UNORM_BLOCK_IMG)
  | KTX_TTF_PVRTC2_4_RGB
  | KTX_TTF_PVRTC2_4_RGBA =>
      Some (if srgb then VK_FORMAT_PVRTC2_4BPP_SRGB_BLOCK_IMG
            else VK_FORMAT_PVRTC2_4BPP_UNORM_BLOCK_IMG)
  | KTX_TTF_BC7_RGBA =>
      Some (if srgb then VK_FORMAT_BC7_SRGB_BLOCK else VK_FORMAT_BC7_UNORM_BLOCK)
  | KTX_TTF_ASTC_4x4_RGBA =>
      Some (if srgb then VK_FORMAT_ASTC_4x4_SRGB_BLOCK
            else VK_FORMAT_ASTC_4x4_UNORM_BLOCK)
  | KTX_TTF_RGB565 => Some VK_FORMAT_R5G6B5_UNORM_PACK16
  | KTX_TTF_BGR565 => Some VK_FORMAT_B5G6R5_UNORM_PACK16
  | KTX_TTF_RGBA4444 => Some VK_FORMAT_R4G4B4A4_UNORM_PACK16
  | KTX_TTF_RGBA32 =>
      Some (if srgb then VK_FORMAT_R8G8B8A8_SRGB else VK_FORMAT_R8G8B8A8_UNORM)
  | _ => None
  end.

(** The targets whose Vulkan format exists in an sRGB and a UNORM variant.
    The single- and two-channel targets (EAC R11 / RG11, BC4, BC5) and the
    16-bit packed ones have a UNORM format only. *)
Definition has_srgb_variant (fmt : ktx_transcode_fmt_e) : bool :=
  match fmt with
  | KTX_TTF_ETC2_EAC_R11 | KTX_TTF_ETC2_EAC_RG11
  | KTX_TTF_BC4_R | KTX_TTF_BC5_RG
  | KTX_TTF_RGB565 | KTX_TTF_BGR565 | KTX_TTF_RGBA4444 => false
  | _ => true
  end.

(** ** Data model *)

(** One entry of the level index (texture2.h). *)
Record ktxLevelIndexEntry : Set := mkLevelIndexEntry {
  byteOffset : Z;
  byteLength : Z;
  uncompressedByteLength : Z }.

(** Header of the Basis supercompression global data (basis_sgd.h). *)
Record ktxBasisGlobalHeader : Set := mkBasisGlobalHeader {
  globalFlags : Z;
  endpointCount : Z;
  selectorCount : Z;
  endpointsByteLength : Z;
  selectorsByteLength : Z;
  tablesByteLength : Z }.

(** Slice description of one image (basis_sgd.h). *)
Record ktxBasisImageDesc : Set := mkBasisImageDesc {
  rgbSliceByteOffset : Z;
  rgbSliceByteLength : Z;
  alphaSliceByteOffset : Z;
  alphaSliceByteLength : Z }.

(** The global data as the code views it through [reinterpret_cast]: the
    header at its start and the image descriptions [BGD_IMAGE_DESCS(bgd)]
    that follow it. *)
Record ktxBasisGlobalData : Set := mkBasisGlobalData {
  bgd_header : ktxBasisGlobalHeader;
  bgd_imageDescs : list ktxBasisImageDesc }.

Record ktxTexture2_private : Set := mkPrivate {
  _supercompressionGlobalData : option ktxBasisGlobalData;
  _sgdByteLength : Z;
  _requiredLevelAlignment : Z;
  _levelIndex : list ktxLevelIndexEntry }.

(** [_formatSize] is kept as the byte image of the [ktxFormatSize] struct,
    which this file only copies; [_stream] stands for the stream object
    that [ktxTexture_isActiveStream] inspects. *)
Record ktxTexture_protected : Set := mkProtected {
  _formatSize : list Z;
  _stream : Z }.

Record ktxTexture2 : Set := mkTexture2 {
  vkFormat : VkFormat;
  isCompressed : bool;
  supercompressionScheme : ktxSupercmpScheme;
  baseWidth : Z;
  baseHeight : Z;
  baseDepth : Z;
  numDimensions : Z;
  numLevels : Z;
  numLayers : Z;
  numFaces : Z;
  isArray : bool;
  isVideo : bool;
  generateMipmaps : bool;
  pDfd : option (list Z);
  pData : option (list Z);
  dataSize : Z;
  _protected : ktxTexture_protected;
  _private : ktxTexture2_private }.

Record ktxTextureCreateInfo : Set := mkCreateInfo {
  ci_glInternalformat : Z;
  ci_vkFormat : VkFormat;
  ci_baseWidth : Z;
  ci_baseHeight : Z;
  ci_baseDepth : Z;
  ci_generateMipmaps : bool;
  ci_isArray : bool;
  ci_numDimensions : Z;
  ci_numFaces : Z;
  ci_numLayers : Z;
  ci_numLevels : Z;
  ci_pDfd : option (list Z) }.

(** Reading through a pointer.  A null [pDfd] or global-data pointer is
    never dereferenced on the paths that reach these reads from the entry
    point (line 172 checks the latter); outside them C gives no meaning,
    and the model reads an empty descriptor and a zeroed header. *)
Definition deref_dfd (p : option (list Z)) : list Z := default [] p.

Definition zero_bgd : ktxBasisGlobalData :=
  mkBasisGlobalData (mkBasisGlobalHeader 0 0 0 0 0 0) [].

Definition deref_bgd (p : option ktxBasisGlobalData) : ktxBasisGlobalData :=
  default zero_bgd p.

(** [imageDescs[image]]; an index past the array reads a zeroed
    description in the model (C reads whatever bytes follow). *)
Definition imageDescs_at (bgd : ktxBasisGlobalData) (image : Z)
  : ktxBasisImageDesc :=
  default (mkBasisImageDesc 0 0 0 0) (bgd_imageDescs bgd !! Z.to_nat image).

(** Modelled from the spec: the macro [_KTX_PADN] of ktxint.h is not part
    of this file; it pads [nbytes] up to the next multiple of [n] ("the next
    level's write offset padded up to the destination format's required
    alignment"). *)
Definition _KTX_PADN (n nbytes : Z) : Z := n * ((nbytes + n - 1) / n).

(** ** Interfaces of the code that is only declared here *)

(** Constants and accessor macros of ktx.h, khr_df.h and basis_sgd.h.
    The DFD accessors take [BDB], the basic descriptor block. *)
Class KtxHeaders := {
  KTX_TF_PVRTC_DECODE_TO_NEXT_POW2 : Z;
  KTX_TF_TRANSCODE_ALPHA_DATA_TO_OPAQUE_FORMATS : Z;
  KHR_DF_MODEL_UASTC : Z;
  KHR_DF_TRANSFER_SRGB : Z;
  KHR_DF_CHANNEL_UASTC_ALPHAPRESENT : Z;
  KHR_DFDVAL_MODEL : list Z -> Z;
  KHR_DFDVAL_TRANSFER : list Z -> Z;
  KHR_DFDSVAL_CHANNELID : list Z -> Z -> Z;
  sizeof_ktxBasisGlobalHeader : Z;
  sizeof_ktxBasisImageDesc : Z }.

(** Functions of libktx called by this file. [ktxTexture2_Create] and
    [ktxTexture2_LoadImageData] return their result code together with the
    texture they created, respectively updated. *)
Class KtxLib := {
  ktxTexture2_GetNumComponents : ktxTexture2 -> Z;
  ktxTexture2_Create : ktxTextureCreateInfo -> KTX_error_code * ktxTexture2;
  ktxTexture_isActiveStream : ktxTexture2 -> bool;
  ktxTexture2_LoadImageData : ktxTexture2 -> KTX_error_code * ktxTexture2;
  ktxTexture2_levelDataOffset : ktxTexture2 -> Z -> Z;
  ktxTexture2_GetImageSize : ktxTexture2 -> Z -> Z;
  ktxTexture_calcImageSize : ktxTexture2 -> Z -> Z }.

(** Arguments of [ktxBasisImageTranscoder::transcode_image]; the two
    pointer arguments are given by their offsets into the prototype's and
    the texture's data. *)
Record etc1s_image_call : Set := mkEtc1sCall {
  ec_imageDesc : ktxBasisImageDesc;
  ec_outputFormat : ktx_transcode_fmt_e;
  ec_writeOffset : Z;
  ec_bufferByteLength : Z;
  ec_level : Z;
  ec_levelOffset : Z;
  ec_width : Z;
  ec_height : Z;
  ec_num_blocks_x : Z;
  ec_num_blocks_y : Z;
  ec_isVideo : bool;
  ec_transcodeAlphaToOpaqueFormats : bool }.

(** Arguments of [ktxUastcImageTranscoder::transcode_image]. *)
Record uastc_image_call : Set := mkUastcCall {
  uc_outputFormat : ktx_transcode_fmt_e;
  uc_writeOffset : Z;
  uc_bufferByteLength : Z;
  uc_level : Z;
  uc_dataInOffset : Z;
  uc_levelImageSizeIn : Z;
  uc_width : Z;
  uc_height : Z;
  uc_num_blocks_x : Z;
  uc_num_blocks_y : Z;
  uc_hasAlpha : bool;
  uc_transcodeFlags : Z }.

(** The transcoding engine.  A per-image call gets the source data, the
    destination buffer (the prototype's [pData]) and its arguments, and
    returns its result code and the destination buffer as it left it; the
    ETC1S transcoder also has the global data its palettes and tables were
    decoded from. *)
Class BasisTranscoder := {
  etc1s_transcode_image :
    ktxBasisGlobalData -> option (list Z) -> etc1s_image_call ->
    option (list Z) -> KTX_error_code * option (list Z);
  uastc_transcode_image :
    option (list Z) -> uastc_image_call ->
    option (list Z) -> KTX_error_code * option (list Z) }.

(** What the code asks of the engine, in order. *)
Inductive engine_event : Set :=
  | Ev_basisu_transcoder_init
  | Ev_decode_palettes (endpointCount endpointsAddr endpointsByteLength
                        selectorCount selectorsAddr selectorsByteLength : Z)
  | Ev_decode_tables (tablesAddr tablesByteLength : Z)
  | Ev_etc1s_transcode_image (image : Z) (call : etc1s_image_call)
                             (result : KTX_error_code)
  | Ev_uastc_transcode_image (image : Z) (call : uastc_image_call)
                             (result : KTX_error_code).

(** ** Loops

    A C [for] loop whose trip count is known on entry, left early by a
    [return] or a [goto cleanup]: the body gives [Some e] to leave the
    function with [e], or [None] to go on. *)

Fixpoint loop_up {S : Type} (body : Z -> S -> option KTX_error_code * S)
    (n : nat) (i : Z) (s : S) : option KTX_error_code * S :=
  match n with
  | O => (None, s)
  | Datatypes.S n' =>
      match body i s with
      | (Some e, s') => (Some e, s')
      | (None, s') => loop_up body n' (i + 1) s'
      end
  end.

(** [for (level = n - 1; level >= 0; level--)]. *)
Fixpoint loop_down {S : Type} (body : Z -> S -> option KTX_error_code * S)
    (n : nat) (s : S) : option KTX_error_code * S :=
  match n with
  | O => (None, s)
  | Datatypes.S n' =>
      match body (Z.of_nat n') s with
      | (Some e, s') => (Some e, s')
      | (None, s') => loop_down body n' s'
      end
  end.

(** State of the loop over the images of one level. *)
Record image_loop_state : Set := mkImageLoop {
  il_writeOffset : Z;
  il_bufferByteLength : Z;
  il_levelSizeOut : Z;
  il_xcodedData : option (list Z);
  il_events : list engine_event }.

(** State of the loop over the levels. *)
Record level_loop_state : Set := mkLevelLoop {
  ll_levelOffsetWrite : Z;
  ll_bufferByteLength : Z;
  ll_protoLevelIndex : list ktxLevelIndexEntry;
  ll_xcodedData : option (list Z);
  ll_events : list engine_event }.

(** What a worker returns: its result code, the prototype as it left it
    and the engine calls it made. *)
Record xcode_outcome : Set := mkXcode {
  xc_result : KTX_error_code;
  xc_prototype : ktxTexture2;
  xc_events : list engine_event }.

Definition set_prototype (prototype : ktxTexture2)
    (levelIndex : list ktxLevelIndexEntry) (data : option (list Z))
  : ktxTexture2 :=
  let p := _private prototype in
  {| vkFormat := vkFormat prototype;
     isCompressed := isCompressed prototype;
     supercompressionScheme := supercompressionScheme prototype;
     baseWidth := baseWidth prototype;
     baseHeight := baseHeight prototype;
     baseDepth := baseDepth prototype;
     numDimensions := numDimensions prototype;
     numLevels := numLevels prototype;
     numLayers := numLayers prototype;
     numFaces := numFaces prototype;
     isArray := isArray prototype;
     isVideo := isVideo prototype;
     generateMipmaps := generateMipmaps prototype;
     pDfd := pDfd prototype;
     pData := data;
     dataSize := dataSize prototype;
     _protected := _protected prototype;
     _private :=
       {| _supercompressionGlobalData := _supercompressionGlobalData p;
          _sgdByteLength := _sgdByteLength p;
          _requiredLevelAlignment := _requiredLevelAlignment p;
          _levelIndex := levelIndex |} |}.

(** [protoLevelIndex[level]] is assigned its three fields (a write past the
    end of the list, which C does not define, changes nothing here). *)
Definition set_levelIndex (idx : list ktxLevelIndexEntry) (level : Z)
    (offset size : Z) : list ktxLevelIndexEntry :=
  <[Z.to_nat level := mkLevelIndexEntry offset size size]> idx.

(** Number of iterations of [for (level = numLevels - 1; level >= 0; level--)]
    with [level] an [int32_t]. *)
Definition level_loop_count (This : ktxTexture2) : nat :=
  Z.to_nat (to_int32 (numLevels This - 1) + 1).

Section Transcode.
Context {Hdr : KtxHeaders} {Lib : KtxLib} {Engine : BasisTranscoder}.

(** *** Address macros of basis_sgd.h

    Modelled from the spec: the macros are not part of this file.  "Byte
    offsets in the auxiliary header are relative to fixed, format-defined
    anchor points (end of header, end of image-descriptor array, etc.)":
    endpoints follow the image descriptions, selectors the endpoints and
    tables the selectors. *)
Definition BGD_ENDPOINTS_ADDR (bgd imageCount : Z) : Z :=
  u64 (bgd + sizeof_ktxBasisGlobalHeader
       + u64 (sizeof_ktxBasisImageDesc * imageCount)).

Definition BGD_SELECTORS_ADDR (bgd : Z) (bgdh : ktxBasisGlobalHeader)
    (imageCount : Z) : Z :=
  u64 (BGD_ENDPOINTS_ADDR bgd imageCount + endpointsByteLength bgdh).

Definition BGD_TABLES_ADDR (bgd : Z) (bgdh : ktxBasisGlobalHeader)
    (imageCount : Z) : Z :=
  u64 (BGD_SELECTORS_ADDR bgd bgdh imageCount + selectorsByteLength bgdh).

(** *** ktxTexture2_transcodeEtc1s *)

(** [firstImages[level]], lines 471-481. *)
Fixpoint firstImages (This : ktxTexture2) (level : nat) : Z :=
  match level with
  | O => 0
  | Datatypes.S l =>
      let layersFaces := u32 (numLayers This * numFaces This) in
      u32 (firstImages This l
           + u32 (layersFaces * MAX (Z.shiftr (baseDepth This) (Z.of_nat l)) 1))
  end.

(** Body of the images loop, lines 547-567. *)
Definition etc1s_image_body (This : ktxTexture2) (hasAlpha : bool)
    (prototype : ktxTexture2) (outputFormat : ktx_transcode_fmt_e)
    (transcodeFlags : Z) (level levelOffset levelImageSizeOut : Z)
    (image : Z) (s : image_loop_state)
  : option KTX_error_code * image_loop_state :=
  let bgd := deref_bgd (_supercompressionGlobalData (_private This)) in
  let transcodeAlphaToOpaqueFormats :=
    hasAlpha
    && negb (Z.land transcodeFlags
               KTX_TF_TRANSCODE_ALPHA_DATA_TO_OPAQUE_FORMATS =? 0) in
  let width := MAX 1 (Z.shiftr (baseWidth This) level) in
  let height := MAX 1 (Z.shiftr (baseHeight This) level) in
  let num_blocks_x := getBlockWidth width 4 in
  let num_blocks_y := getBlockHeight height 4 in
  let bufferByteLength := u64 (dataSize prototype - il_writeOffset s) in
  let desc := imageDescs_at bgd image in
  if hasAlpha
     && ((alphaSliceByteOffset desc =? 0) || (alphaSliceByteLength desc =? 0))
  then (Some KTX_FILE_DATA_ERROR, s)
  else
    let call :=
      {| ec_imageDesc := desc;
         ec_outputFormat := outputFormat;
         ec_writeOffset := il_writeOffset s;
         ec_bufferByteLength := bufferByteLength;
         ec_level := level;
         ec_levelOffset := levelOffset;
         ec_width := width;
         ec_height := height;
         ec_num_blocks_x := num_blocks_x;
         ec_num_blocks_y := num_blocks_y;
         ec_isVideo := isVideo This;
         ec_transcodeAlphaToOpaqueFormats := transcodeAlphaToOpaqueFormats |} in
    let '(result, data) :=
      etc1s_transcode_image bgd (pData This) call (il_xcodedData s) in
    let events := il_events s ++ [Ev_etc1s_transcode_image image call result] in
    if decide (result = KTX_SUCCESS) then
      (None,
       {| il_writeOffset := u64 (il_writeOffset s + levelImageSizeOut);
          il_bufferByteLength := il_bufferByteLength s;
          il_levelSizeOut := u64 (il_levelSizeOut s + levelImageSizeOut);
          il_xcodedData := data;
          il_events := events |})
    else
      (Some result,
       {| il_writeOffset := il_writeOffset s;
          il_bufferByteLength := il_bufferByteLength s;
          il_levelSizeOut := il_levelSizeOut s;
          il_xcodedData := data;
          il_events := events |}).

(** Body of the level loop, lines 526-576. *)
Definition etc1s_level_body (This : ktxTexture2) (hasAlpha : bool)
    (prototype : ktxTexture2) (outputFormat : ktx_transcode_fmt_e)
    (transcodeFlags : Z) (level : Z) (s : level_loop_state)
  : option KTX_error_code * level_loop_state :=
  let levelOffset := ktxTexture2_levelDataOffset This level in
  let depth := MAX 1 (Z.shiftr (baseDepth This) level) in
  let faceSlices := u32 (numFaces This * depth) in
  let numImages := u32 (numLayers This * faceSlices) in
  let image := firstImages This (Z.to_nat level) in
  let endImage := u32 (image + numImages) in
  let levelImageSizeOut := ktxTexture2_GetImageSize prototype level in
  let '(r, il) :=
    loop_up
      (etc1s_image_body This hasAlpha prototype outputFormat transcodeFlags
         level levelOffset levelImageSizeOut)
      (Z.to_nat (endImage - image)) image
      {| il_writeOffset := ll_levelOffsetWrite s;
         il_bufferByteLength := ll_bufferByteLength s;
         il_levelSizeOut := 0;
         il_xcodedData := ll_xcodedData s;
         il_events := ll_events s |} in
  match r with
  | Some e =>
      (Some e,
       {| ll_levelOffsetWrite := ll_levelOffsetWrite s;
          ll_bufferByteLength := ll_bufferByteLength s;
          ll_protoLevelIndex := ll_protoLevelIndex s;
          ll_xcodedData := il_xcodedData il;
          ll_events := il_events il |})
  | None =>
      let levelSizeOut := il_levelSizeOut il in
      (None,
       {| ll_levelOffsetWrite :=
            u64 (_KTX_PADN (_requiredLevelAlignment (_private prototype))
                   (u64 (ll_levelOffsetWrite s + levelSizeOut)));
          ll_bufferByteLength := ll_bufferByteLength s;
          ll_protoLevelIndex :=
            set_levelIndex (ll_protoLevelIndex s) level
              (ll_levelOffsetWrite s) levelSizeOut;
          ll_xcodedData := il_xcodedData il;
          ll_events := il_events il |})
  end.

(** The level loop, lines 523-577, entered with the events so far. *)
Definition etc1s_levels (This : ktxTexture2) (hasAlpha : bool)
    (prototype : ktxTexture2) (outputFormat : ktx_transcode_fmt_e)
    (transcodeFlags : Z) (events : list engine_event)
  : option KTX_error_code * level_loop_state :=
  loop_down
    (etc1s_level_body This hasAlpha prototype outputFormat transcodeFlags)
    (level_loop_count This)
    {| ll_levelOffsetWrite := 0;
       ll_bufferByteLength := dataSize prototype;
       ll_protoLevelIndex := _levelIndex (_private prototype);
       ll_xcodedData := pData prototype;
       ll_events := events |}.

Definition ktxTexture2_transcodeEtc1s (This : ktxTexture2) (hasAlpha : bool)
    (prototype : ktxTexture2) (outputFormat : ktx_transcode_fmt_e)
    (transcodeFlags : Z) : xcode_outcome :=
  let priv := _private This in
  let bgd := deref_bgd (_supercompressionGlobalData priv) in
  let bgdh := bgd_header bgd in
  if negb (negb (endpointsByteLength bgdh =? 0)
           && negb (selectorsByteLength bgdh =? 0)
           && negb (tablesByteLength bgdh =? 0))
  then mkXcode KTX_FILE_DATA_ERROR prototype []
  else
    let imageCount := firstImages This (Z.to_nat (numLevels This)) in
    if u64 (BGD_TABLES_ADDR 0 bgdh imageCount + tablesByteLength bgdh)
       >? _sgdByteLength priv
    then mkXcode KTX_FILE_DATA_ERROR prototype []
    else
      let events :=
        [Ev_decode_palettes (endpointCount bgdh)
           (BGD_ENDPOINTS_ADDR 0 imageCount) (endpointsByteLength bgdh)
           (selectorCount bgdh) (BGD_SELECTORS_ADDR 0 bgdh imageCount)
           (selectorsByteLength bgdh);
         Ev_decode_tables (BGD_TABLES_ADDR 0 bgdh imageCount)
           (tablesByteLength bgdh)] in
      let '(r, s) :=
        etc1s_levels This hasAlpha prototype outputFormat transcodeFlags
          events in
      mkXcode (default KTX_SUCCESS r)
        (set_prototype prototype (ll_protoLevelIndex s) (ll_xcodedData s))
        (ll_events s).

(** *** ktxTexture2_transcodeUastc *)

(** Body of the images loop, lines 632-644.  [pDataIn], advanced by
    [levelImageSizeIn] after each call, is given by its offset into the
    texture's data.  The result of the call is stored and not looked at. *)
Definition uastc_image_body (This : ktxTexture2) (hasAlpha : bool)
    (outputFormat : ktx_transcode_fmt_e) (transcodeFlags : Z)
    (level levelOffset levelImageSizeIn levelImageSizeOut : Z)
    (image : Z) (s : image_loop_state)
  : option KTX_error_code * image_loop_state :=
  let width := MAX 1 (Z.shiftr (baseWidth This) level) in
  let height := MAX 1 (Z.shiftr (baseHeight This) level) in
  let num_blocks_x := getBlockWidth width 4 in
  let num_blocks_y := getBlockHeight height 4 in
  let call :=
    {| uc_outputFormat := outputFormat;
       uc_writeOffset := il_writeOffset s;
       uc_bufferByteLength := il_bufferByteLength s;
       uc_level := level;
       uc_dataInOffset := u64 (levelOffset + image * levelImageSizeIn);
       uc_levelImageSizeIn := u32 levelImageSizeIn;
       uc_width := width;
       uc_height := height;
       uc_num_blocks_x := num_blocks_x;
       uc_num_blocks_y := num_blocks_y;
       uc_hasAlpha := hasAlpha;
       uc_transcodeFlags := transcodeFlags |} in
  let '(result, data) :=
    uastc_transcode_image (pData This) call (il_xcodedData s) in
  (None,
   {| il_writeOffset := u64 (il_writeOffset s + levelImageSizeOut);
      il_bufferByteLength := u64 (il_bufferByteLength s - levelImageSizeOut);
      il_levelSizeOut := u64 (il_levelSizeOut s + levelImageSizeOut);
      il_xcodedData := data;
      il_events :=
        il_events s ++ [Ev_uastc_transcode_image image call result] |}).

(** Body of the level loop, lines 606-650. *)
Definition uastc_level_body (This : ktxTexture2) (hasAlpha : bool)
    (prototype : ktxTexture2) (outputFormat : ktx_transcode_fmt_e)
    (transcodeFlags : Z) (level : Z) (s : level_loop_state)
  : option KTX_error_code * level_loop_state :=
  let depth := MAX 1 (Z.shiftr (baseDepth This) level) in
  let levelImageCount :=
    u32 (u32 (numLayers This * numFaces This) * depth) in
  let levelImageSizeIn := ktxTexture_calcImageSize This level in
  let levelImageSizeOut := ktxTexture_calcImageSize prototype level in
  let levelOffset := ktxTexture2_levelDataOffset This level in
  let '(_, il) :=
    loop_up
      (uastc_image_body This hasAlpha outputFormat transcodeFlags
         level levelOffset levelImageSizeIn levelImageSizeOut)
      (Z.to_nat levelImageCount) 0
      {| il_writeOffset := ll_levelOffsetWrite s;
         il_bufferByteLength := ll_bufferByteLength s;
         il_levelSizeOut := 0;
         il_xcodedData := ll_xcodedData s;
         il_events := ll_events s |} in
  let levelSizeOut := il_levelSizeOut il in
  (None,
   {| ll_levelOffsetWrite := u64 (ll_levelOffsetWrite s + levelSizeOut);
      ll_bufferByteLength := il_bufferByteLength il;
      ll_protoLevelIndex :=
        set_levelIndex (ll_protoLevelIndex s) level
          (ll_levelOffsetWrite s) levelSizeOut;
      ll_xcodedData := il_xcodedData il;
      ll_events := il_events il |}).

(** The padding of lines 653-654 is assigned to the local
    [levelOffsetWrite] after the loop and read by nothing. *)
Definition ktxTexture2_transcodeUastc (This : ktxTexture2) (hasAlpha : bool)
    (prototype : ktxTexture2) (outputFormat : ktx_transcode_fmt_e)
    (transcodeFlags : Z) : xcode_outcome :=
  let protoPriv := _private prototype in
  let '(_, s) :=
    loop_down
      (uastc_level_body This hasAlpha prototype outputFormat transcodeFlags)
      (level_loop_count This)
      {| ll_levelOffsetWrite := 0;
         ll_bufferByteLength := dataSize prototype;
         ll_protoLevelIndex := _levelIndex protoPriv;
         ll_xcodedData := pData prototype;
         ll_events := [] |} in
  mkXcode KTX_SUCCESS
    (set_prototype prototype (ll_protoLevelIndex s) (ll_xcodedData s))
    (ll_events s).

(** *** ktxTexture2_TranscodeBasis *)

(** The function-local [static bool transcoderInitialized]. *)
Record transcoder_globals : Set := mkGlobals {
  transcoderInitialized : bool }.

(** Result of a call of the entry point: the result code, the texture and
    the static as the call left them, and the engine calls made. *)
Record transcode_outcome : Set := mkOutcome {
  to_result : KTX_error_code;
  to_This : ktxTexture2;
  to_globals : transcoder_globals;
  to_events : list engine_event }.

(** Lines 189-199. *)
Definition source_hasAlpha (This : ktxTexture2) : bool :=
  let BDB := drop 1 (deref_dfd (pDfd This)) in
  if decide (supercompressionScheme This = KTX_SS_BASIS_UNIVERSAL) then
    let numComponents := ktxTexture2_GetNumComponents This in
    (numComponents =? 2) || (numComponents =? 4)
  else
    KHR_DFDSVAL_CHANNELID BDB 0 =? KHR_DF_CHANNEL_UASTC_ALPHAPRESENT.

Definition source_srgb (This : ktxTexture2) : bool :=
  let BDB := drop 1 (deref_dfd (pDfd This)) in
  KHR_DFDVAL_TRANSFER BDB =? KHR_DF_TRANSFER_SRGB.

Definition make_createInfo (This : ktxTexture2) (vkFormat : VkFormat)
  : ktxTextureCreateInfo :=
  {| ci_glInternalformat := 0;
     ci_vkFormat := vkFormat;
     ci_baseWidth := baseWidth This;
     ci_baseHeight := baseHeight This;
     ci_baseDepth := baseDepth This;
     ci_generateMipmaps := generateMipmaps This;
     ci_isArray := isArray This;
     ci_numDimensions := numDimensions This;
     ci_numFaces := numFaces This;
     ci_numLayers := numLayers This;
     ci_numLevels := numLevels This;
     ci_pDfd := None |}.

(** Lines 342-365, "Fix up the current texture".  The [memcpy] of the
    level index copies [numLevels] entries of the prototype's over the
    texture's. *)
Definition commit (This prototype : ktxTexture2) (vkFormat : VkFormat)
  : ktxTexture2 :=
  let priv := _private This in
  let protoPriv := _private prototype in
  let n := Z.to_nat (numLevels This) in
  {| vkFormat := vkFormat;
     isCompressed := isCompressed prototype;
     supercompressionScheme := KTX_SS_NONE;
     baseWidth := baseWidth This;
     baseHeight := baseHeight This;
     baseDepth := baseDepth This;
     numDimensions := numDimensions This;
     numLevels := numLevels This;
     numLayers := numLayers This;
     numFaces := numFaces This;
     isArray := isArray This;
     isVideo := isVideo This;
     generateMipmaps := generateMipmaps This;
     pDfd := pDfd prototype;
     pData := pData prototype;
     dataSize := dataSize prototype;
     _protected :=
       {| _formatSize := _formatSize (_protected prototype);
          _stream := _stream (_protected This) |};
     _private :=
       {| _supercompressionGlobalData := _supercompressionGlobalData priv;
          _sgdByteLength := _sgdByteLength priv;
          _requiredLevelAlignment := _requiredLevelAlignment protoPriv;
          _levelIndex :=
            take n (_levelIndex protoPriv) ++ drop n (_levelIndex priv) |} |}.

(** Lines 315-325: complete a pending load, or fail for want of data.
    [Some e] is the early [return e]; the texture is given back as
    [ktxTexture2_LoadImageData] left it, also when it failed. *)
Definition ensure_data (This : ktxTexture2)
  : option KTX_error_code * ktxTexture2 :=
  match pData This with
  | Some _ => (None, This)
  | None =>
      if ktxTexture_isActiveStream This then
        let '(result, This') := ktxTexture2_LoadImageData This in
        if decide (result = KTX_SUCCESS) then (None, This')
        else (Some result, This')
      else (Some KTX_INVALID_OPERATION, This)
  end.

Definition ktxTexture2_TranscodeBasis (g : transcoder_globals)
    (This : ktxTexture2) (outputFormat : ktx_transcode_fmt_e)
    (transcodeFlags : Z) : transcode_outcome :=
  let BDB := drop 1 (deref_dfd (pDfd This)) in
  let colorModel := KHR_DFDVAL_MODEL BDB in
  let priv := _private This in
  if negb (colorModel =? KHR_DF_MODEL_UASTC)
     && negb (bool_decide (supercompressionScheme This = KTX_SS_BASIS_UNIVERSAL))
  then mkOutcome KTX_INVALID_OPERATION This g []
  else if bool_decide (supercompressionScheme This = KTX_SS_BASIS_UNIVERSAL)
          && (bool_decide (_supercompressionGlobalData priv = None)
              || (_sgdByteLength priv =? 0))
  then mkOutcome KTX_INVALID_OPERATION This g []
  else if negb (Z.land transcodeFlags KTX_TF_PVRTC_DECODE_TO_NEXT_POW2 =? 0)
  then mkOutcome KTX_UNSUPPORTED_FEATURE This g []
  else if (bool_decide (outputFormat = KTX_TTF_PVRTC1_4_RGB)
           || bool_decide (outputFormat = KTX_TTF_PVRTC1_4_RGBA))
          && (negb (isPow2 (baseWidth This)) || negb (isPow2 (baseHeight This)))
  then mkOutcome KTX_INVALID_OPERATION This g []
  else
    let srgb := source_srgb This in
    let hasAlpha := source_hasAlpha This in
    let outputFormat := map_outputFormat hasAlpha outputFormat in
    match select_vkFormat srgb outputFormat with
    | None => mkOutcome KTX_INVALID_VALUE This g []
    | Some vkFormat =>
        let '(result, prototype) :=
          ktxTexture2_Create (make_createInfo This vkFormat) in
        if negb (bool_decide (result = KTX_SUCCESS))
        then mkOutcome result This g []
        else
          match ensure_data This with
          | (Some e, This) => mkOutcome e This g []
          | (None, This) =>
              let init :=
                if transcoderInitialized g then []
                else [Ev_basisu_transcoder_init] in
              let xc :=
                if bool_decide
                     (supercompressionScheme This = KTX_SS_BASIS_UNIVERSAL)
                then ktxTexture2_transcodeEtc1s This hasAlpha prototype
                       outputFormat transcodeFlags
                else ktxTexture2_transcodeUastc This hasAlpha prototype
                       outputFormat transcodeFlags in
              mkOutcome (xc_result xc)
                (if bool_decide (xc_result xc = KTX_SUCCESS)
                 then commit This (xc_prototype xc) vkFormat
                 else This)
                g (init ++ xc_events xc)
          end
    end.

(** Sequential calls of the entry point in one process: the static and
    each texture are handed from call to call. *)
Record transcode_request : Set := mkRequest {
  rq_This : ktxTexture2;
  rq_outputFormat : ktx_transcode_fmt_e;
  rq_transcodeFlags : Z }.

Fixpoint run_calls (g : transcoder_globals) (calls : list transcode_request)
  : list engine_event :=
  match calls with
  | [] => []
  | rq :: rest =>
      let o := ktxTexture2_TranscodeBasis g (rq_This rq) (rq_outputFormat rq)
                 (rq_transcodeFlags rq) in
      to_events o ++ run_calls (to_globals o) rest
  end.

End Transcode.

(** Number of executions of [basisu_transcoder_init] in a run. *)
Fixpoint count_init (events : list engine_event) : nat :=
  match events with
  | [] => O
  | Ev_basisu_transcoder_init :: rest => Datatypes.S (count_init rest)
  | _ :: rest => count_init rest
  end.

(** ** A concrete library and engine

    Instances of the three interfaces to run the code on: the constants
    and DFD layout of khr_df.h and ktx.h, a container factory that sizes
    every level from the target format, and an engine that answers every
    per-image call with a fixed result code and writes nothing. *)
Module Fixture.

Definition dfd_word (BDB : list Z) (i : Z) : Z := default 0 (BDB !! Z.to_nat i).

Definition headers : KtxHeaders :=
  {| KTX_TF_PVRTC_DECODE_TO_NEXT_POW2 := 2;
     KTX_TF_TRANSCODE_ALPHA_DATA_TO_OPAQUE_FORMATS := 4;
     KHR_DF_MODEL_UASTC := 166;
     KHR_DF_TRANSFER_SRGB := 2;
     KHR_DF_CHANNEL_UASTC_ALPHAPRESENT := 1;
     KHR_DFDVAL_MODEL := fun BDB => Z.land (dfd_word BDB 2) 255;
     KHR_DFDVAL_TRANSFER :=
       fun BDB => Z.land (Z.shiftr (dfd_word BDB 2) 16) 255;
     KHR_DFDSVAL_CHANNELID :=
       fun BDB S => Z.land (Z.shiftr (dfd_word BDB (6 + S * 4)) 24) 15;
     sizeof_ktxBasisGlobalHeader := 20;
     sizeof_ktxBasisImageDesc := 16 |}.

(** Bytes of a 4x4 block, or of a pixel for the uncompressed formats
    (block width 1); a texture still in a transcodable encoding
    ([VK_FORMAT_UNDEFINED]) has 16-byte 4x4 blocks. *)
Definition block_bytes (f : VkFormat) : Z :=
  match f with
  | VK_FORMAT_ETC2_R8G8B8_SRGB_BLOCK | VK_FORMAT_ETC2_R8G8B8_UNORM_BLOCK
  | VK_FORMAT_EAC_R11_UNORM_BLOCK
  | VK_FORMAT_BC1_RGB_SRGB_BLOCK | VK_FORMAT_BC1_RGB_UNORM_BLOCK
  | VK_FORMAT_BC4_UNORM_BLOCK
  | VK_FORMAT_PVRTC1_4BPP_SRGB_BLOCK_IMG | VK_FORMAT_PVRTC1_4BPP_UNORM_BLOCK_IMG
  | VK_FORMAT_PVRTC2_4BPP_SRGB_BLOCK_IMG | VK_FORMAT_PVRTC2_4BPP_UNORM_BLOCK_IMG
      => 8
  | VK_FORMAT_R5G6B5_UNORM_PACK16 | VK_FORMAT_B5G6R5_UNORM_PACK16
  | VK_FORMAT_R4G4B4A4_UNORM_PACK16 => 2
  | VK_FORMAT_R8G8B8A8_SRGB | VK_FORMAT_R8G8B8A8_UNORM => 4
  | _ => 16
  end.

Definition block_dim (f : VkFormat) : Z :=
  match f with
  | VK_FORMAT_R5G6B5_UNORM_PACK16 | VK_FORMAT_B5G6R5_UNORM_PACK16
  | VK_FORMAT_R4G4B4A4_UNORM_PACK16
  | VK_FORMAT_R8G8B8A8_SRGB | VK_FORMAT_R8G8B8A8_UNORM => 1
  | _ => 4
  end.

Definition image_size (t : ktxTexture2) (level : Z) : Z :=
  let w := MAX 1 (Z.shiftr (baseWidth t) level) in
  let h := MAX 1 (Z.shiftr (baseHeight t) level) in
  let d := block_dim (vkFormat t) in
  ((w + d - 1) / d) * ((h + d - 1) / d) * block_bytes (vkFormat t).

Definition level_size (t : ktxTexture2) (level : Z) : Z :=
  numLayers t * numFaces t * MAX 1 (Z.shiftr (baseDepth t) level)
  * image_size t level.

(** Level alignment of an uncompressed-in-place texture: the least common
    multiple of the block size and 4. *)
Definition level_alignment (f : VkFormat) : Z := Z.lcm (block_bytes f) 4.

Definition data_size (t : ktxTexture2) : Z :=
  fold_right
    (fun l acc => _KTX_PADN (level_alignment (vkFormat t))
                    (level_size t (Z.of_nat l)) + acc)
    0 (seq 0 (Z.to_nat (numLevels t))).

(** The texture [ktxTexture2_Create] makes, before its storage is
    sized. *)
Definition shape (ci : ktxTextureCreateInfo) : ktxTexture2 :=
  {| vkFormat := ci_vkFormat ci;
     isCompressed := block_dim (ci_vkFormat ci) =? 4;
     supercompressionScheme := KTX_SS_NONE;
     baseWidth := ci_baseWidth ci;
     baseHeight := ci_baseHeight ci;
     baseDepth := ci_baseDepth ci;
     numDimensions := ci_numDimensions ci;
     numLevels := ci_numLevels ci;
     numLayers := ci_numLayers ci;
     numFaces := ci_numFaces ci;
     isArray := ci_isArray ci;
     isVideo := false;
     generateMipmaps := ci_generateMipmaps ci;
     pDfd := Some [0];
     pData := None;
     dataSize := 0;
     _protected := mkProtected [] 0;
     _private := mkPrivate None 0 (level_alignment (ci_vkFormat ci)) [] |}.

Definition with_dataSize (t : ktxTexture2) (size : Z) : ktxTexture2 :=
  {| vkFormat := vkFormat t;
     isCompressed := isCompressed t;
     supercompressionScheme := supercompressionScheme t;
     baseWidth := baseWidth t;
     baseHeight := baseHeight t;
     baseDepth := baseDepth t;
     numDimensions := numDimensions t;
     numLevels := numLevels t;
     numLayers := numLayers t;
     numFaces := numFaces t;
     isArray := isArray t;
     isVideo := isVideo t;
     generateMipmaps := generateMipmaps t;
     pDfd := pDfd t;
     pData := pData t;
     dataSize := size;
     _protected := _protected t;
     _private := _private t |}.

(** Creation with storage: a zeroed level index of [numLevels] entries and
    a zeroed buffer of the padded sizes of all levels. *)
Definition create (ci : ktxTextureCreateInfo) : KTX_error_code * ktxTexture2 :=
  let size := data_size (shape ci) in
  (KTX_SUCCESS,
   set_prototype (with_dataSize (shape ci) size)
     (replicate (Z.to_nat (ci_numLevels ci)) (mkLevelIndexEntry 0 0 0))
     (Some (replicate (Z.to_nat size) 0))).

(** A pending load reads [dataSize] bytes into a fresh buffer. *)
Definition load (t : ktxTexture2) : KTX_error_code * ktxTexture2 :=
  (KTX_SUCCESS,
   set_prototype t (_levelIndex (_private t))
     (Some (replicate (Z.to_nat (dataSize t)) 7))).

Definition lib : KtxLib :=
  {| ktxTexture2_GetNumComponents := fun _ => 3;
     ktxTexture2_Create := create;
     ktxTexture_isActiveStream :=
       fun t => negb (_stream (_protected t) =? 0);
     ktxTexture2_LoadImageData := load;
     ktxTexture2_levelDataOffset :=
       fun t level =>
         default 0 (byteOffset <$> _levelIndex (_private t) !! Z.to_nat level);
     ktxTexture2_GetImageSize := image_size;
     ktxTexture_calcImageSize := image_size |}.

(** An engine whose every per-image call returns [r]. *)
Definition engine (r : KTX_error_code) : BasisTranscoder :=
  {| etc1s_transcode_image := fun _ _ _ data => (r, data);
     uastc_transcode_image := fun _ _ data => (r, data) |}.

(** Word 2 of the basic descriptor block holds model, primaries, transfer
    and flags; sample 0 starts at word 6. *)
Definition dfd (model transfer channelId : Z) : option (list Z) :=
  Some [0; 0; 0; model + Z.shiftl transfer 16; 0; 0; 0;
        Z.shiftl channelId 24].

(** A UASTC texture: colour model 166, no supercompression. *)
Definition uastc_texture (w h levels layers : Z) (data : option (list Z))
    (index : list ktxLevelIndexEntry) : ktxTexture2 :=
  {| vkFormat := VK_FORMAT_UNDEFINED;
     isCompressed := true;
     supercompressionScheme := KTX_SS_NONE;
     baseWidth := w; baseHeight := h; baseDepth := 1;
     numDimensions := 2;
     numLevels := levels; numLayers := layers; numFaces := 1;
     isArray := false; isVideo := false; generateMipmaps := false;
     pDfd := dfd 166 1 0;
     pData := data;
     dataSize := 32;
     _protected := mkProtected [] 1;
     _private := mkPrivate None 0 16 index |}.

(** A Basis Universal (ETC1S) texture of one level with global data. *)
Definition etc1s_texture (w h layers : Z) (data : option (list Z))
    (bgd : ktxBasisGlobalData) (sgdByteLength : Z) : ktxTexture2 :=
  {| vkFormat := VK_FORMAT_UNDEFINED;
     isCompressed := true;
     supercompressionScheme := KTX_SS_BASIS_UNIVERSAL;
     baseWidth := w; baseHeight := h; baseDepth := 1;
     numDimensions := 2;
     numLevels := 1; numLayers := layers; numFaces := 1;
     isArray := false; isVideo := false; generateMipmaps := false;
     pDfd := dfd 163 1 0;
     pData := data;
     dataSize := 16;
     _protected := mkProtected [] 1;
     _private :=
       mkPrivate (Some bgd) sgdByteLength 1 [mkLevelIndexEntry 0 16 16] |}.

(** A 3x3 UASTC texture of one level. *)
Definition uastc_3x3 : ktxTexture2 :=
  uastc_texture 3 3 1 1 (Some (replicate 16 0)) [mkLevelIndexEntry 0 16 16].

(** A 2x2 ETC1S texture with its 1x1 mip level, one image each. *)
Definition etc1s_2x2_mips : ktxTexture2 :=
  {| vkFormat := VK_FORMAT_UNDEFINED;
     isCompressed := true;
     supercompressionScheme := KTX_SS_BASIS_UNIVERSAL;
     baseWidth := 2; baseHeight := 2; baseDepth := 1;
     numDimensions := 2;
     numLevels := 2; numLayers := 1; numFaces := 1;
     isArray := false; isVideo := false; generateMipmaps := false;
     pDfd := dfd 163 1 0;
     pData := Some (replicate 32 0);
     dataSize := 32;
     _protected := mkProtected [] 1;
     _private :=
       mkPrivate
         (Some (mkBasisGlobalData (mkBasisGlobalHeader 0 1 1 8 8 8)
                  [mkBasisImageDesc 0 16 0 0; mkBasisImageDesc 0 16 0 0]))
         76 1 [mkLevelIndexEntry 16 16 16; mkLevelIndexEntry 0 16 16] |}.

(** A 2x2 UASTC texture with its 1x1 mip level; level 1 is stored first. *)
Definition uastc_2x2_mips : ktxTexture2 :=
  uastc_texture 2 2 2 1 (Some (replicate 32 0))
    [mkLevelIndexEntry 16 16 16; mkLevelIndexEntry 0 16 16].

(** A 4x4 ETC1S texture whose data is still to be loaded and whose global
    data declares no endpoints. *)
Definition etc1s_pending : ktxTexture2 :=
  etc1s_texture 4 4 1 None
    (mkBasisGlobalData (mkBasisGlobalHeader 0 1 1 0 8 8)
       [mkBasisImageDesc 0 16 0 0])
    100.

(** The same with its data loaded. *)
Definition etc1s_no_endpoints : ktxTexture2 :=
  etc1s_texture 4 4 1 (Some (replicate 16 0))
    (mkBasisGlobalData (mkBasisGlobalHeader 0 1 1 0 8 8)
       [mkBasisImageDesc 0 16 0 0])
    100.

(** A well-formed 4x4 opaque ETC1S texture of one level and one layer. *)
Definition etc1s_4x4 : ktxTexture2 :=
  etc1s_texture 4 4 1 (Some (replicate 16 0))
    (mkBasisGlobalData (mkBasisGlobalHeader 0 1 1 8 8 8)
       [mkBasisImageDesc 0 16 0 0])
    60.

(** A 4x4 ETC1S texture whose tables would end at byte 60 of global data
    declared 59 bytes long. *)
Definition etc1s_tables_overflow : ktxTexture2 :=
  etc1s_texture 4 4 1 (Some (replicate 16 0))
    (mkBasisGlobalData (mkBasisGlobalHeader 0 1 1 8 8 8)
       [mkBasisImageDesc 0 16 0 0])
    59.

(** A 4x4 ETC1S texture of two layers with alpha slices; the description
    of image 1 has no alpha slice. *)
Definition etc1s_alpha_two_layers : ktxTexture2 :=
  etc1s_texture 4 4 2 (Some (replicate 16 0))
    (mkBasisGlobalData (mkBasisGlobalHeader 1 1 1 8 8 8)
       [mkBasisImageDesc 0 4 4 4; mkBasisImageDesc 8 8 0 0])
    200.

(** The RGBA32 prototype the factory makes for it. *)
Definition rgba32_prototype (t : ktxTexture2) : ktxTexture2 :=
  (create (make_createInfo t VK_FORMAT_R8G8B8A8_UNORM)).2.

End Fixture.

(** ** More concrete textures and a library whose loads fail *)
Module FixtureMore.
Import Fixture.

(** [t] with its image data dropped and its stream set to [stream]. *)
Definition unloaded (t : ktxTexture2) (stream : Z) : ktxTexture2 :=
  {| vkFormat := vkFormat t;
     isCompressed := isCompressed t;
     supercompressionScheme := supercompressionScheme t;
     baseWidth := baseWidth t;
     baseHeight := baseHeight t;
     baseDepth := baseDepth t;
     numDimensions := numDimensions t;
     numLevels := numLevels t;
     numLayers := numLayers t;
     numFaces := numFaces t;
     isArray := isArray t;
     isVideo := isVideo t;
     generateMipmaps := generateMipmaps t;
     pDfd := pDfd t;
     pData := None;
     dataSize := dataSize t;
     _protected := mkProtected (_formatSize (_protected t)) stream;
     _private := _private t |}.

(** The library of [Fixture] with a [ktxTexture2_LoadImageData] that fails
    with [KTX_FILE_READ_ERROR] and leaves the texture alone. *)
Definition lib_failing_load : KtxLib :=
  {| ktxTexture2_GetNumComponents := @ktxTexture2_GetNumComponents lib;
     ktxTexture2_Create := @ktxTexture2_Create lib;
     ktxTexture_isActiveStream := @ktxTexture_isActiveStream lib;
     ktxTexture2_LoadImageData := fun t => (KTX_FILE_READ_ERROR, t);
     ktxTexture2_levelDataOffset := @ktxTexture2_levelDataOffset lib;
     ktxTexture2_GetImageSize := @ktxTexture2_GetImageSize lib;
     ktxTexture_calcImageSize := @ktxTexture_calcImageSize lib |}.

(** The RGB565 prototype the factory makes for a texture. *)
Definition rgb565_prototype (t : ktxTexture2) : ktxTexture2 :=
  (create (make_createInfo t VK_FORMAT_R5G6B5_UNORM_PACK16)).2.

(** A UASTC texture that declares no level. *)
Definition uastc_no_levels : ktxTexture2 :=
  uastc_texture 2 2 0 1 (Some (replicate 32 0)) [].


End FixtureMore.

(** ** Vocabulary of the statements about the level index *)

(** The layout the level index is to have, read from the highest level
    (first in the data) down: a level starts where the one before it
    ended, padded to [align]; its two lengths agree; and the data ends with
    the padded end of level 0. *)
Fixpoint padded_layout (align offset dataSize : Z)
    (levels : list ktxLevelIndexEntry) : bool :=
  match levels with
  | [] => offset =? dataSize
  | e :: rest =>
      (byteOffset e =? offset)
      && (byteLength e =? uncompressedByteLength e)
      && padded_layout align (_KTX_PADN align (offset + byteLength e))
           dataSize rest
  end.

Definition level_index_consistent (t : ktxTexture2) : bool :=
  padded_layout (_requiredLevelAlignment (_private t)) 0 (dataSize t)
    (rev (_levelIndex (_private t))).

(** The byte at which the level written after level [n] starts when
    levels are written from the highest down and [pad] is applied to the
    end of each: 0 before any level is written ([n] is the level count
    [N]), else the padded end of level [n]. *)
Definition offset_after (pad : Z -> Z) (N : nat)
    (idx : list ktxLevelIndexEntry) (n : nat) : Z :=
  if decide (n = N) then 0
  else match idx !! n with
       | Some e => pad (u64 (byteOffset e + byteLength e))
       | None => 0
       end.

(** Levels [n] to [N - 1] of a level index are laid out: each has an
    entry, whose two lengths agree and whose offset is where the level
    before it in the data (the next higher one) ended, padded. *)
Definition levels_laid_out (pad : Z -> Z) (N : nat)
    (idx : list ktxLevelIndexEntry) (n : nat) : Prop :=
  forall l, (n <= l < N)%nat ->
    exists e, idx !! l = Some e
              /\ byteLength e = uncompressedByteLength e
              /\ byteOffset e = offset_after pad N idx (Datatypes.S l).

(** The results of the per-image UASTC calls of a run, in order. *)
Fixpoint uastc_results (events : list engine_event) : list KTX_error_code :=
  match events with
  | [] => []
  | Ev_uastc_transcode_image _ _ r :: rest => r :: uastc_results rest
  | _ :: rest => uastc_results rest
  end.

(** ** Vocabulary of the statements about the ETC1S path *)

(** The test of lines 552-553 on an image description. *)
Definition alpha_slice_missing (d : ktxBasisImageDesc) : bool :=
  (alphaSliceByteOffset d =? 0) || (alphaSliceByteLength d =? 0).

(** [image] is one of the images of [level] the loops of
    [ktxTexture2_transcodeEtc1s] run over. *)
Definition etc1s_visits (This : ktxTexture2) (level image : Z) : Prop :=
  let depth := MAX 1 (Z.shiftr (baseDepth This) level) in
  let numImages := u32 (numLayers This * u32 (numFaces This * depth)) in
  let first := firstImages This (Z.to_nat level) in
  0 <= level /\ (Z.to_nat level < level_loop_count This)%nat
  /\ first <= image < u32 (first + numImages).

(** A per-image ETC1S call was made for an image with its alpha slice
    described, if the source has alpha. *)
Definition etc1s_event_ok (bgd : ktxBasisGlobalData) (hasAlpha : bool)
    (ev : engine_event) : Prop :=
  match ev with
  | Ev_etc1s_transcode_image image _ _ =>
      hasAlpha = true -> alpha_slice_missing (imageDescs_at bgd image) = false
  | _ => True
  end.

Definition etc1s_event_succeeded (ev : engine_event) : Prop :=
  match ev with
  | Ev_etc1s_transcode_image _ _ r => r = KTX_SUCCESS
  | _ => True
  end.

(** The calls made while the loops are running: all succeeded. *)
Definition events_running (bgd : ktxBasisGlobalData) (hasAlpha : bool)
    (evs : list engine_event) : Prop :=
  Forall (etc1s_event_ok bgd hasAlpha) evs
  /\ Forall etc1s_event_succeeded evs.

(** The calls made when the loops are left with [e]: either a description
    was found wanting and all calls had succeeded, or the last call is the
    only one that failed, and it failed with [e]. *)
Definition events_aborted (bgd : ktxBasisGlobalData) (hasAlpha : bool)
    (e : KTX_error_code) (evs : list engine_event) : Prop :=
  e <> KTX_SUCCESS
  /\ Forall (etc1s_event_ok bgd hasAlpha) evs
  /\ ((e = KTX_FILE_DATA_ERROR /\ Forall etc1s_event_succeeded evs)
      \/ exists evs0 image call,
           evs = evs0 ++ [Ev_etc1s_transcode_image image call e]
           /\ Forall etc1s_event_succeeded evs0).


(** ** Vocabulary of the statements about the engine calls *)

(** Number of images of a level as the ETC1S level loop computes it
    (lines 531-534) and as the UASTC level loop does (lines 615, 621). *)
Definition etc1s_numImages (This : ktxTexture2) (level : Z) : Z :=
  u32 (numLayers This
       * u32 (numFaces This * MAX 1 (Z.shiftr (baseDepth This) level))).

Definition uastc_levelImageCount (This : ktxTexture2) (level : Z) : Z :=
  u32 (u32 (numLayers This * numFaces This)
       * MAX 1 (Z.shiftr (baseDepth This) level)).

(** The level and image of each per-image call of a run, in order. *)
Fixpoint etc1s_call_ids (events : list engine_event) : list (Z * Z) :=
  match events with
  | [] => []
  | Ev_etc1s_transcode_image image call _ :: rest =>
      (ec_level call, image) :: etc1s_call_ids rest
  | _ :: rest => etc1s_call_ids rest
  end.

Fixpoint uastc_call_ids (events : list engine_event) : list (Z * Z) :=
  match events with
  | [] => []
  | Ev_uastc_transcode_image image call _ :: rest =>
      (uc_level call, image) :: uastc_call_ids rest
  | _ :: rest => uastc_call_ids rest
  end.

(** The images [first], ..., [first + count - 1] of [level]. *)
Definition level_images (level first count : Z) : list (Z * Z) :=
  (fun image => (level, image)) <$> seqZ first count.

(** The levels a worker runs over, highest first. *)
Definition levels_down (N : nat) : list Z := Z.of_nat <$> rev (seq 0 N).

Definition is_etc1s_image_event (ev : engine_event) : Prop :=
  match ev with
  | Ev_etc1s_transcode_image _ _ _ => True
  | _ => False
  end.

(** A per-image UASTC call is given the rest of the destination buffer:
    its write offset and its capacity add up to the size of the data. *)
Definition uastc_event_fits (dataSize : Z) (ev : engine_event) : Prop :=
  match ev with
  | Ev_uastc_transcode_image _ call _ =>
      u64 (uc_writeOffset call + uc_bufferByteLength call) = u64 dataSize
  | _ => True
  end.

(** The target a per-image call names, and the calls that name [fmt]. *)
Definition event_outputFormat (ev : engine_event)
  : option ktx_transcode_fmt_e :=
  match ev with
  | Ev_etc1s_transcode_image _ call _ => Some (ec_outputFormat call)
  | Ev_uastc_transcode_image _ call _ => Some (uc_outputFormat call)
  | _ => None
  end.

Definition event_targets (fmt : ktx_transcode_fmt_e) (ev : engine_event)
  : Prop :=
  match event_outputFormat ev with
  | Some f => f = fmt
  | None => True
  end.

(** * Properties *)

(** ** Machine integers and padding *)

Lemma u64_range (x : Z) : 0 <= u64 x < 2 ^ 64.
Proof. unfold u64. apply Z.mod_pos_bound. lia. Qed.

Lemma u32_range (x : Z) : 0 <= u32 x < 2 ^ 32.
Proof. unfold u32. apply Z.mod_pos_bound. lia. Qed.

Lemma u64_small (x : Z) : 0 <= x < 2 ^ 64 -> u64 x = x.
Proof. intros Hx. unfold u64. now apply Z.mod_small. Qed.

Lemma KTX_PADN_multiple (n nbytes : Z) : (n | _KTX_PADN n nbytes).
Proof. exists ((nbytes + n - 1) / n). unfold _KTX_PADN. lia. Qed.

Lemma KTX_PADN_ge (n nbytes : Z) :
  0 < n -> nbytes <= _KTX_PADN n nbytes < nbytes + n.
Proof.
  intros Hn. unfold _KTX_PADN.
  pose proof (Z.div_mod (nbytes + n - 1) n ltac:(lia)) as Hdm.
  pose proof (Z.mod_pos_bound (nbytes + n - 1) n Hn) as Hb.
  lia.
Qed.

(** ** Loops *)

Section Loops.
Context {S : Type}.
Implicit Types (body : Z -> S -> option KTX_error_code * S).

(** An invariant [P], indexed by the loop counter, is carried through an
    ascending loop; [Q] holds where the loop is left early. *)
Lemma loop_up_inv body (P : Z -> S -> Prop) (Q : KTX_error_code -> S -> Prop) :
  (forall i s, P i s ->
     match body i s with
     | (Some e, s') => Q e s'
     | (None, s') => P (i + 1) s'
     end) ->
  forall n i s, P i s ->
    match loop_up body n i s with
    | (Some e, s') => Q e s'
    | (None, s') => P (i + Z.of_nat n) s'
    end.
Proof.
  intros Hstep n. induction n as [|n IH]; intros i s HP; simpl.
  - now rewrite Z.add_0_r.
  - specialize (Hstep i s HP). destruct (body i s) as [[e|] s'].
    + exact Hstep.
    + specialize (IH (i + 1) s' Hstep).
      destruct (loop_up body n (i + 1) s') as [[e|] s'']; [exact IH|].
      now replace (i + Z.of_nat (Datatypes.S n)) with (i + 1 + Z.of_nat n) by lia.
Qed.

(** The same for a descending loop; [P] is indexed by the number of
    iterations still to run. *)
Lemma loop_down_inv body (P : nat -> S -> Prop)
    (Q : KTX_error_code -> S -> Prop) :
  (forall n s, P (Datatypes.S n) s ->
     match body (Z.of_nat n) s with
     | (Some e, s') => Q e s'
     | (None, s') => P n s'
     end) ->
  forall n s, P n s ->
    match loop_down body n s with
    | (Some e, s') => Q e s'
    | (None, s') => P O s'
    end.
Proof.
  intros Hstep n. induction n as [|n IH]; intros s HP; simpl.
  - exact HP.
  - specialize (Hstep n s HP). destruct (body (Z.of_nat n) s) as [[e|] s'].
    + exact Hstep.
    + exact (IH s' Hstep).
Qed.

(** A loop that meets an iteration which always leaves, leaves. *)
Lemma loop_up_stops body (j : Z) :
  (forall s, (body j s).1 <> None) ->
  forall n i s, i <= j < i + Z.of_nat n -> (loop_up body n i s).1 <> None.
Proof.
  intros Hj n. induction n as [|n IH]; intros i s Hr; simpl.
  - lia.
  - destruct (body i s) as [[e|] s'] eqn:Hb; [discriminate|].
    destruct (decide (i = j)) as [->|Hne].
    + specialize (Hj s). rewrite Hb in Hj. now elim Hj.
    + apply IH. lia.
Qed.

Lemma loop_down_stops body (l : nat) :
  (forall s, (body (Z.of_nat l) s).1 <> None) ->
  forall n s, (l < n)%nat -> (loop_down body n s).1 <> None.
Proof.
  intros Hl n. induction n as [|n IH]; intros s Hr; simpl.
  - lia.
  - destruct (body (Z.of_nat n) s) as [[e|] s'] eqn:Hb; [discriminate|].
    destruct (decide (l = n)) as [->|Hne].
    + specialize (Hl s). rewrite Hb in Hl. now elim Hl.
    + apply IH. lia.
Qed.

(** A loop whose iterations never leave runs to its end. *)
Lemma loop_down_runs_on body :
  (forall l s, (body l s).1 = None) ->
  forall n s, (loop_down body n s).1 = None.
Proof.
  intros Hb n. induction n as [|n IH]; intros s; simpl; [reflexivity|].
  specialize (Hb (Z.of_nat n) s).
  destruct (body (Z.of_nat n) s) as [[e|] s']; [discriminate Hb|apply IH].
Qed.

End Loops.

(** ** Layout of the level index

    Both workers write the level index in a descending loop whose body
    records the running offset and a length for its level and moves the
    offset past the level; they differ in the padding [pad] applied. *)

Section Layout.
Variables (pad : Z -> Z)
          (body : Z -> level_loop_state
                  -> option KTX_error_code * level_loop_state).
Hypothesis body_writes_level : forall level s s',
  body level s = (None, s') ->
  exists size,
    ll_protoLevelIndex s'
    = set_levelIndex (ll_protoLevelIndex s) level (ll_levelOffsetWrite s) size
    /\ ll_levelOffsetWrite s' = pad (u64 (ll_levelOffsetWrite s + size)).

Lemma offset_after_insert N idx n m e :
  n <> m ->
  offset_after pad N (<[m := e]> idx) n = offset_after pad N idx n.
Proof.
  intros Hne. unfold offset_after.
  now rewrite list_lookup_insert_ne by congruence.
Qed.

Lemma loop_down_lays_out_levels (N : nat) s0 s :
  (N <= length (ll_protoLevelIndex s0))%nat ->
  ll_levelOffsetWrite s0 = 0 ->
  loop_down body N s0 = (None, s) ->
  levels_laid_out pad N (ll_protoLevelIndex s) O.
Proof.
  intros Hlen Hzero Hrun.
  pose (P := fun (n : nat) (st : level_loop_state) =>
    (n <= N)%nat
    /\ length (ll_protoLevelIndex st) = length (ll_protoLevelIndex s0)
    /\ levels_laid_out pad N (ll_protoLevelIndex st) n
    /\ ll_levelOffsetWrite st = offset_after pad N (ll_protoLevelIndex st) n).
  pose proof (loop_down_inv body P (fun _ _ => True)) as Hinv.
  assert (Hstep : forall n st, P (Datatypes.S n) st ->
            match body (Z.of_nat n) st with
            | (Some _, _) => True
            | (None, st') => P n st'
            end).
  { intros n st (Hn & Hl & Hlaid & Hoff).
    destruct (body (Z.of_nat n) st) as [[e|] st'] eqn:Hb; [exact I|].
    destruct (body_writes_level _ _ _ Hb) as (size & Hidx & Hlw).
    unfold set_levelIndex in Hidx. rewrite Nat2Z.id in Hidx.
    assert (Hin : (n < length (ll_protoLevelIndex st))%nat) by lia.
    assert (Hnew : ll_protoLevelIndex st' !! n
                   = Some (mkLevelIndexEntry (ll_levelOffsetWrite st)
                             size size)).
    { rewrite Hidx. now apply list_lookup_insert_eq. }
    repeat split.
    - lia.
    - rewrite Hidx, length_insert. exact Hl.
    - intros l Hr. destruct (decide (l = n)) as [->|Hne].
      + eexists. split; [exact Hnew|]. split; [reflexivity|]. simpl.
        rewrite Hidx, offset_after_insert by lia. exact Hoff.
      + destruct (Hlaid l ltac:(lia)) as (e & He & Heq & Hst).
        exists e. rewrite Hidx.
        rewrite list_lookup_insert_ne by congruence.
        rewrite offset_after_insert by lia. auto.
    - unfold offset_after. rewrite decide_False by lia.
      rewrite Hnew. simpl. exact Hlw. }
  specialize (Hinv Hstep N s0). rewrite Hrun in Hinv.
  apply Hinv. repeat split.
  - lia.
  - intros l Hr. lia.
  - unfold offset_after. now rewrite decide_True.
Qed.

End Layout.

(** ** Format resolution *)

(** C5: the ambiguous targets resolve from the source-has-alpha flag alone:
    BC1-or-3 to BC3_RGBA with alpha and BC1_RGB without, ETC to ETC2_RGBA
    with alpha and ETC1_RGB without, and the two PVRTC RGBA targets to
    their RGB variant when there is no alpha (and to themselves when there
    is). *)
Theorem ambiguous_formats_resolve_by_alpha :
  map_outputFormat true KTX_TTF_BC1_OR_3 = KTX_TTF_BC3_RGBA
  /\ map_outputFormat false KTX_TTF_BC1_OR_3 = KTX_TTF_BC1_RGB
  /\ map_outputFormat true KTX_TTF_ETC = KTX_TTF_ETC2_RGBA
  /\ map_outputFormat false KTX_TTF_ETC = KTX_TTF_ETC1_RGB
  /\ map_outputFormat false KTX_TTF_PVRTC1_4_RGBA = KTX_TTF_PVRTC1_4_RGB
  /\ map_outputFormat false KTX_TTF_PVRTC2_4_RGBA = KTX_TTF_PVRTC2_4_RGB
  /\ map_outputFormat true KTX_TTF_PVRTC1_4_RGBA = KTX_TTF_PVRTC1_4_RGBA
  /\ map_outputFormat true KTX_TTF_PVRTC2_4_RGBA = KTX_TTF_PVRTC2_4_RGBA.
Proof. repeat split; reflexivity. Qed.

(** Every other target is left as requested. *)
Lemma map_outputFormat_unambiguous (hasAlpha : bool) fmt :
  fmt <> KTX_TTF_BC1_OR_3 -> fmt <> KTX_TTF_ETC ->
  fmt <> KTX_TTF_PVRTC1_4_RGBA -> fmt <> KTX_TTF_PVRTC2_4_RGBA ->
  map_outputFormat hasAlpha fmt = fmt.
Proof. destruct fmt; simpl; congruence. Qed.

(** C6, as stated, fails: BC4_R from an sRGB source gets the UNORM tag. *)
Lemma srgb_not_carried_by_BC4 :
  ~ (forall (srgb hasAlpha : bool) fmt vk,
       select_vkFormat srgb (map_outputFormat hasAlpha fmt) = Some vk ->
       VkFormat_is_srgb vk = srgb).
Proof.
  intros Hall. specialize (Hall true false KTX_TTF_BC4_R _ eq_refl).
  discriminate Hall.
Qed.

(** C6, amended: for every supported target the resolved format tag is the
    sRGB variant exactly when the source transfer function is sRGB and the
    target has an sRGB variant; the targets without one (EAC R11 / RG11,
    BC4_R, BC5_RG, RGB565, BGR565, RGBA4444) always get their UNORM tag. *)
Theorem vkFormat_srgb_iff_source_srgb (srgb hasAlpha : bool) fmt vk :
  select_vkFormat srgb (map_outputFormat hasAlpha fmt) = Some vk ->
  VkFormat_is_srgb vk = srgb && has_srgb_variant fmt.
Proof.
  destruct fmt, hasAlpha, srgb; simpl; intros Hvk;
    try discriminate Hvk; injection Hvk as <-; reflexivity.
Qed.

Lemma vkFormat_srgb_iff_source_srgb_witness :
  VkFormat_is_srgb VK_FORMAT_ETC2_R8G8B8A8_SRGB_BLOCK
  = true && has_srgb_variant KTX_TTF_ETC.
Proof.
  apply (vkFormat_srgb_iff_source_srgb true true KTX_TTF_ETC). reflexivity.
Defined.

(** ** The entry point and its checks *)

Section EntryPoint.
Context {Hdr : KtxHeaders} {Lib : KtxLib} {Engine : BasisTranscoder}.

(** C10: the source-has-alpha flag of a Basis Universal (ETC1S) source is
    set exactly when the source reports 2 or 4 components; that of a UASTC
    source exactly when the channel ID of sample 0 of its descriptor is the
    alpha-present tag. *)
Theorem source_hasAlpha_derivation (This : ktxTexture2) :
  (supercompressionScheme This = KTX_SS_BASIS_UNIVERSAL ->
   (source_hasAlpha This = true <->
    ktxTexture2_GetNumComponents This = 2
    \/ ktxTexture2_GetNumComponents This = 4))
  /\ (supercompressionScheme This <> KTX_SS_BASIS_UNIVERSAL ->
      (source_hasAlpha This = true <->
       KHR_DFDSVAL_CHANNELID (drop 1 (deref_dfd (pDfd This))) 0
       = KHR_DF_CHANNEL_UASTC_ALPHAPRESENT)).
Proof.
  unfold source_hasAlpha. split; intros Hs.
  - rewrite decide_True by exact Hs.
    rewrite orb_true_iff, !Z.eqb_eq. reflexivity.
  - rewrite decide_False by exact Hs. apply Z.eqb_eq.
Qed.

(** The static is read and never written. *)
Lemma transcoderInitialized_unchanged g This fmt flags :
  to_globals (ktxTexture2_TranscodeBasis g This fmt flags) = g.
Proof.
  unfold ktxTexture2_TranscodeBasis.
  repeat (case_match; simpl; try reflexivity).
Qed.

(** A call that succeeds while the static is clear has run
    [basisu_transcoder_init]. *)
Lemma successful_call_runs_init g This fmt flags :
  transcoderInitialized g = false ->
  to_result (ktxTexture2_TranscodeBasis g This fmt flags) = KTX_SUCCESS ->
  exists evs,
    to_events (ktxTexture2_TranscodeBasis g This fmt flags)
    = Ev_basisu_transcoder_init :: evs.
Proof.
  intros Hg. unfold ktxTexture2_TranscodeBasis.
  destruct (negb (KHR_DFDVAL_MODEL _ =? _) && _); [discriminate|].
  destruct (bool_decide _ && (_ || _)); [discriminate|].
  destruct (negb (Z.land _ _ =? 0)); [discriminate|].
  destruct ((bool_decide _ || bool_decide _) && _); [discriminate|].
  destruct (select_vkFormat _ _) as [vk|]; [|discriminate].
  destruct (ktxTexture2_Create _) as [result prototype].
  destruct (negb (bool_decide (result = KTX_SUCCESS))) eqn:Hres.
  { simpl. intros ->. discriminate Hres. }
  unfold ensure_data. rewrite Hg.
  destruct (pData This); simpl; [eauto|].
  destruct (ktxTexture_isActiveStream This); simpl; [|discriminate].
  destruct (ktxTexture2_LoadImageData This) as [r T].
  destruct (decide (r = KTX_SUCCESS)); simpl; [eauto|congruence].
Qed.

(** C7: on the ETC1S path, global data whose header has a zero endpoints,
    selectors or tables byte length, or whose tables would end past the
    declared length of the global data, is answered with
    [KTX_FILE_DATA_ERROR] before the engine is asked anything: no palette or
    table is decoded, no image transcoded, and the prototype is untouched. *)
Theorem etc1s_corrupt_global_data_rejected (This : ktxTexture2)
    (hasAlpha : bool) (prototype : ktxTexture2) fmt (flags : Z) :
  let bgdh :=
    bgd_header (deref_bgd (_supercompressionGlobalData (_private This))) in
  let imageCount := firstImages This (Z.to_nat (numLevels This)) in
  endpointsByteLength bgdh = 0 \/ selectorsByteLength bgdh = 0
  \/ tablesByteLength bgdh = 0
  \/ u64 (BGD_TABLES_ADDR 0 bgdh imageCount + tablesByteLength bgdh)
     > _sgdByteLength (_private This) ->
  ktxTexture2_transcodeEtc1s This hasAlpha prototype fmt flags
  = mkXcode KTX_FILE_DATA_ERROR prototype [].
Proof.
  intros bgdh imageCount Hbad. unfold ktxTexture2_transcodeEtc1s.
  fold bgdh. fold imageCount.
  destruct (negb (negb (endpointsByteLength bgdh =? 0)
                  && negb (selectorsByteLength bgdh =? 0)
                  && negb (tablesByteLength bgdh =? 0))) eqn:Hz;
    [reflexivity|].
  apply negb_false_iff in Hz.
  rewrite !andb_true_iff, !negb_true_iff, !Z.eqb_neq in Hz.
  destruct Hbad as [Hb|[Hb|[Hb|Hb]]]; try tauto.
  destruct (_ >? _) eqn:Hgt; [reflexivity|].
  rewrite Z.gtb_ltb, Z.ltb_ge in Hgt. lia.
Qed.

(** C3, amended: on a texture whose base width or height is not a power of
    two, a request for PVRTC1_4_RGB or PVRTC1_4_RGBA fails and leaves the
    texture alone: with [KTX_INVALID_OPERATION] whenever the
    decode-to-next-power-of-two flag is clear, whatever the other flag bits
    are, and with [KTX_INVALID_OPERATION] or [KTX_UNSUPPORTED_FEATURE] when
    it is set.  (The PVRTC2 targets are not subject to the check.) *)
Theorem PVRTC1_needs_power_of_two g (This : ktxTexture2) fmt (flags : Z) :
  fmt = KTX_TTF_PVRTC1_4_RGB \/ fmt = KTX_TTF_PVRTC1_4_RGBA ->
  isPow2 (baseWidth This) = false \/ isPow2 (baseHeight This) = false ->
  let o := ktxTexture2_TranscodeBasis g This fmt flags in
  to_This o = This /\ to_events o = []
  /\ (to_result o = KTX_INVALID_OPERATION
      \/ Z.land flags KTX_TF_PVRTC_DECODE_TO_NEXT_POW2 <> 0
         /\ to_result o = KTX_UNSUPPORTED_FEATURE).
Proof.
  intros Hfmt Hdim. unfold ktxTexture2_TranscodeBasis.
  destruct (negb (KHR_DFDVAL_MODEL _ =? _) && _); [simpl; auto|].
  destruct (bool_decide _ && (_ || _)); [simpl; auto|].
  destruct (Z.land flags KTX_TF_PVRTC_DECODE_TO_NEXT_POW2 =? 0) eqn:Hfl; simpl.
  - assert (Hchk :
      (bool_decide (fmt = KTX_TTF_PVRTC1_4_RGB)
       || bool_decide (fmt = KTX_TTF_PVRTC1_4_RGBA))
      && (negb (isPow2 (baseWidth This)) || negb (isPow2 (baseHeight This)))
      = true).
    { apply andb_true_iff. split.
      - destruct Hfmt as [-> | ->]; reflexivity.
      - destruct Hdim as [-> | ->]; simpl; auto using orb_true_r. }
    rewrite Hchk. simpl. auto.
  - apply Z.eqb_neq in Hfl. auto.
Qed.

(** C2, amended: when the entry point does not return [KTX_SUCCESS], the
    texture is what it was before the call, unless its image data was not
    loaded and a load was pending: then it is what
    [ktxTexture2_LoadImageData] made of it.  The transcoding itself writes
    to the texture in the commit step only, which a failure never
    reaches. *)
Theorem failure_leaves_source_unchanged g (This : ktxTexture2) fmt
    (flags : Z) :
  let o := ktxTexture2_TranscodeBasis g This fmt flags in
  to_result o <> KTX_SUCCESS ->
  to_This o = This
  \/ (pData This = None /\ ktxTexture_isActiveStream This = true
      /\ to_This o = (ktxTexture2_LoadImageData This).2).
Proof.
  unfold ktxTexture2_TranscodeBasis.
  destruct (negb (KHR_DFDVAL_MODEL _ =? _) && _); [simpl; auto|].
  destruct (bool_decide _ && (_ || _)); [simpl; auto|].
  destruct (negb (Z.land _ _ =? 0)); [simpl; auto|].
  destruct ((bool_decide _ || bool_decide _) && _); [simpl; auto|].
  destruct (select_vkFormat _ _) as [vk|]; [|simpl; auto].
  destruct (ktxTexture2_Create _) as [result prototype].
  destruct (negb (bool_decide (result = KTX_SUCCESS))); [simpl; auto|].
  assert (Hload : (ensure_data This).2 = This
                  \/ (pData This = None
                      /\ ktxTexture_isActiveStream This = true
                      /\ (ensure_data This).2
                         = (ktxTexture2_LoadImageData This).2)).
  { unfold ensure_data. destruct (pData This); [simpl; auto|].
    destruct (ktxTexture_isActiveStream This); [|simpl; auto].
    right. destruct (ktxTexture2_LoadImageData This) as [r T].
    destruct (decide (r = KTX_SUCCESS)); simpl; auto. }
  destruct (ensure_data This) as [[e|] This1]; simpl in *.
  - intros _. destruct Hload as [->|(?&?&->)]; auto.
  - intros Hfail.
    rewrite bool_decide_eq_false_2 by exact Hfail.
    destruct Hload as [->|(?&?&->)]; auto.
Qed.

End EntryPoint.

(** ** The ETC1S worker *)

Section Etc1s.
Context {Hdr : KtxHeaders} {Lib : KtxLib} {Engine : BasisTranscoder}.
Variables (This : ktxTexture2) (hasAlpha : bool) (prototype : ktxTexture2)
          (outputFormat : ktx_transcode_fmt_e) (transcodeFlags : Z).

Let bgd := deref_bgd (_supercompressionGlobalData (_private This)).

(** One image: the loop goes on after a successful call only. *)
Lemma etc1s_image_body_events level levelOffset levelImageSizeOut image s :
  events_running bgd hasAlpha (il_events s) ->
  match etc1s_image_body This hasAlpha prototype outputFormat transcodeFlags
          level levelOffset levelImageSizeOut image s with
  | (Some e, s') => events_aborted bgd hasAlpha e (il_events s')
  | (None, s') => events_running bgd hasAlpha (il_events s')
  end.
Proof.
  intros [Hok Hsucc]. unfold etc1s_image_body. fold bgd.
  destruct (hasAlpha && _) eqn:Hchk.
  - repeat split; [discriminate|exact Hok|left; auto].
  - destruct (etc1s_transcode_image _ _ _ _) as [result data].
    assert (Hok' : hasAlpha = true ->
                   alpha_slice_missing (imageDescs_at bgd image) = false).
    { intros ->. exact Hchk. }
    destruct (decide (result = KTX_SUCCESS)) as [->|Hne]; simpl.
    + split; apply Forall_app; split; auto; repeat constructor.
    + repeat split; [exact Hne| |right; eauto].
      apply Forall_app; split; auto.
Qed.

(** An image whose alpha slice is not described stops the loop before the
    engine is called, if the source has alpha. *)
Lemma etc1s_image_body_missing_alpha level levelOffset levelImageSizeOut
    image s :
  hasAlpha = true ->
  alpha_slice_missing (imageDescs_at bgd image) = true ->
  etc1s_image_body This hasAlpha prototype outputFormat transcodeFlags
    level levelOffset levelImageSizeOut image s
  = (Some KTX_FILE_DATA_ERROR, s).
Proof.
  intros -> Hbad. unfold etc1s_image_body. fold bgd.
  unfold alpha_slice_missing in Hbad. now rewrite Hbad.
Qed.

(** One level. *)
Lemma etc1s_level_body_events level s :
  events_running bgd hasAlpha (ll_events s) ->
  match etc1s_level_body This hasAlpha prototype outputFormat transcodeFlags
          level s with
  | (Some e, s') => events_aborted bgd hasAlpha e (ll_events s')
  | (None, s') => events_running bgd hasAlpha (ll_events s')
  end.
Proof.
  intros Hrun. unfold etc1s_level_body.
  match goal with
  | |- context [loop_up ?b ?n ?i ?s0] =>
      pose proof (loop_up_inv b
                    (fun _ st => events_running bgd hasAlpha (il_events st))
                    (fun e st => events_aborted bgd hasAlpha e (il_events st))
                    (fun j st => etc1s_image_body_events _ _ _ j st)
                    n i s0 Hrun) as Hloop;
      destruct (loop_up b n i s0) as [[e|] il]
  end; simpl; exact Hloop.
Qed.

Lemma etc1s_level_body_missing_alpha level image s :
  hasAlpha = true ->
  etc1s_visits This level image ->
  alpha_slice_missing (imageDescs_at bgd image) = true ->
  (etc1s_level_body This hasAlpha prototype outputFormat transcodeFlags
     level s).1 <> None.
Proof.
  intros Ha (Hl & _ & Hfirst & Hend) Hbad. unfold etc1s_level_body.
  match goal with
  | |- context [loop_up ?b ?n ?i ?s0] =>
      assert (Hstop : (loop_up b n i s0).1 <> None);
      [|destruct (loop_up b n i s0) as [[e|] il]; simpl in *;
        [discriminate|now elim Hstop]]
  end.
  apply (loop_up_stops _ image).
  - intros st. now rewrite etc1s_image_body_missing_alpha.
  - split; [exact Hfirst|]. rewrite Z2Nat.id by lia. lia.
Qed.

(** The level loop as a whole. *)
Lemma etc1s_levels_events events :
  events_running bgd hasAlpha events ->
  match etc1s_levels This hasAlpha prototype outputFormat transcodeFlags
          events with
  | (Some e, s) => events_aborted bgd hasAlpha e (ll_events s)
  | (None, s) => events_running bgd hasAlpha (ll_events s)
  end.
Proof.
  intros Hrun. unfold etc1s_levels.
  apply (loop_down_inv _
           (fun _ st => events_running bgd hasAlpha (ll_events st))
           (fun e st => events_aborted bgd hasAlpha e (ll_events st))).
  - intros n st. apply etc1s_level_body_events.
  - exact Hrun.
Qed.

Lemma etc1s_levels_missing_alpha events level image :
  hasAlpha = true ->
  etc1s_visits This level image ->
  alpha_slice_missing (imageDescs_at bgd image) = true ->
  (etc1s_levels This hasAlpha prototype outputFormat transcodeFlags
     events).1 <> None.
Proof.
  intros Ha Hvis Hbad. unfold etc1s_levels.
  apply (loop_down_stops _ (Z.to_nat level)).
  - intros st. destruct Hvis as (Hl & Hvis').
    rewrite Z2Nat.id by exact Hl.
    now apply (etc1s_level_body_missing_alpha level image).
  - now destruct Hvis as (_ & Hlt & _).
Qed.

(** The whole worker: its calls and its result. *)
Lemma etc1s_events_shape :
  let xc := ktxTexture2_transcodeEtc1s This hasAlpha prototype outputFormat
              transcodeFlags in
  (xc_result xc = KTX_SUCCESS ->
   events_running bgd hasAlpha (xc_events xc))
  /\ (xc_result xc <> KTX_SUCCESS ->
      events_aborted bgd hasAlpha (xc_result xc) (xc_events xc)).
Proof.
  unfold ktxTexture2_transcodeEtc1s. fold bgd.
  assert (Hnil : events_aborted bgd hasAlpha KTX_FILE_DATA_ERROR []).
  { repeat split; [discriminate|constructor|left; split; auto]. }
  destruct (negb _); [simpl; split; [discriminate|auto]|].
  destruct (_ >? _); [simpl; split; [discriminate|auto]|].
  match goal with
  | |- context [etc1s_levels _ _ _ _ _ ?evs] =>
      pose proof (etc1s_levels_events evs) as Hloop;
      destruct (etc1s_levels This hasAlpha prototype outputFormat
                  transcodeFlags evs) as [[e|] s]
  end; simpl in *.
  - assert (Hab : events_aborted bgd hasAlpha e (ll_events s)).
    { apply Hloop. split; repeat constructor. }
    split; [|auto]. intros ->. now destruct Hab as [Hne _].
  - split; [intros _|congruence]. apply Hloop. split; repeat constructor.
Qed.

(** On the ETC1S path a failed per-image call is the last thing asked of
    the engine, and its error is what the worker returns. *)
Lemma etc1s_engine_error_aborts evs1 image call r evs2 :
  xc_events (ktxTexture2_transcodeEtc1s This hasAlpha prototype outputFormat
               transcodeFlags)
  = evs1 ++ Ev_etc1s_transcode_image image call r :: evs2 ->
  r <> KTX_SUCCESS ->
  evs2 = []
  /\ xc_result (ktxTexture2_transcodeEtc1s This hasAlpha prototype
                  outputFormat transcodeFlags) = r.
Proof.
  intros Hev Hr. destruct etc1s_events_shape as [Hs Hf].
  assert (Hin : forall l, Forall etc1s_event_succeeded
                  (evs1 ++ Ev_etc1s_transcode_image image call r :: l) ->
                False).
  { intros l Hall. apply Forall_app in Hall as [_ Hall].
    apply Forall_cons in Hall as [Hhd _]. simpl in Hhd. congruence. }
  destruct (decide (xc_result (ktxTexture2_transcodeEtc1s This hasAlpha
                                 prototype outputFormat transcodeFlags)
                    = KTX_SUCCESS)) as [Hok|Hko].
  - destruct (Hs Hok) as [_ Hall]. rewrite Hev in Hall. now elim (Hin evs2).
  - destruct (Hf Hko) as (_ & _ & [[_ Hall]|(evs0 & i & c & Heq & Hall)]).
    + rewrite Hev in Hall. now elim (Hin evs2).
    + rewrite Hev in Heq.
      destruct evs2 as [|x evs2 _] using rev_ind.
      * apply app_inj_tail in Heq as [_ Heq]. now injection Heq.
      * rewrite app_comm_cons, app_assoc in Heq.
        apply app_inj_tail in Heq as [Heq _]. subst evs0.
        now elim (Hin evs2).
Qed.

(** A level the ETC1S loop completes is recorded at the running offset,
    which then moves past it and is padded to the level alignment. *)
Lemma etc1s_level_body_writes level s s' :
  etc1s_level_body This hasAlpha prototype outputFormat transcodeFlags
    level s = (None, s') ->
  exists size,
    ll_protoLevelIndex s'
    = set_levelIndex (ll_protoLevelIndex s) level (ll_levelOffsetWrite s) size
    /\ ll_levelOffsetWrite s'
       = u64 (_KTX_PADN (_requiredLevelAlignment (_private prototype))
                (u64 (ll_levelOffsetWrite s + size))).
Proof.
  unfold etc1s_level_body.
  destruct (loop_up _ _ _ _) as [[e|] il]; [discriminate|].
  intros [= <-]. simpl. eauto.
Qed.

(** After a successful run of the ETC1S worker on a prototype whose level
    index has room for the levels, every level has its entry: its
    [byteLength] is its [uncompressedByteLength], the highest level is at
    offset 0 and every other level starts at the end of the next higher
    one, padded up to the required level alignment. *)
Lemma etc1s_level_index_laid_out :
  let xc := ktxTexture2_transcodeEtc1s This hasAlpha prototype outputFormat
              transcodeFlags in
  xc_result xc = KTX_SUCCESS ->
  (level_loop_count This <= length (_levelIndex (_private prototype)))%nat ->
  levels_laid_out
    (fun x => u64 (_KTX_PADN (_requiredLevelAlignment (_private prototype)) x))
    (level_loop_count This) (_levelIndex (_private (xc_prototype xc))) O.
Proof.
  unfold ktxTexture2_transcodeEtc1s. fold bgd.
  destruct (negb _); [discriminate|].
  destruct (_ >? _); [discriminate|].
  match goal with
  | |- context [etc1s_levels _ _ _ _ _ ?evs] =>
      pose proof (etc1s_levels_events evs) as Hloop;
      destruct (etc1s_levels This hasAlpha prototype outputFormat
                  transcodeFlags evs) as [[e|] s] eqn:Hrun
  end; simpl.
  - intros ->. destruct Hloop as [Hne _]; [split; repeat constructor|].
    now elim Hne.
  - intros _ Hlen. unfold etc1s_levels in Hrun.
    refine (loop_down_lays_out_levels _ _ _ _ _ s _ _ Hrun);
      [|exact Hlen|reflexivity].
    intros level st st'. apply etc1s_level_body_writes.
Qed.

(** C8, amended: on the ETC1S path with a source that has alpha, an image
    the loops run over whose description has a zero alpha slice byte
    offset or a zero alpha slice byte length keeps the worker from
    succeeding, and the engine is never called for that image.  The error
    returned is [KTX_FILE_DATA_ERROR], unless the engine failed on an image
    transcoded before: then the last call made is that failed call and its
    error is returned. *)
Theorem etc1s_missing_alpha_slice_rejected level image :
  hasAlpha = true ->
  etc1s_visits This level image ->
  alpha_slice_missing (imageDescs_at bgd image) = true ->
  let xc := ktxTexture2_transcodeEtc1s This hasAlpha prototype outputFormat
              transcodeFlags in
  xc_result xc <> KTX_SUCCESS
  /\ (forall call r,
        Ev_etc1s_transcode_image image call r ∉ xc_events xc)
  /\ (xc_result xc = KTX_FILE_DATA_ERROR
      \/ exists evs0 image' call',
           xc_events xc
           = evs0 ++ [Ev_etc1s_transcode_image image' call' (xc_result xc)]).
Proof.
  intros Ha Hvis Hbad xc.
  assert (Hfail : xc_result xc <> KTX_SUCCESS).
  { subst xc. unfold ktxTexture2_transcodeEtc1s. fold bgd.
    destruct (negb _); [discriminate|].
    destruct (_ >? _); [discriminate|].
    match goal with
    | |- context [etc1s_levels _ _ _ _ _ ?evs] =>
        pose proof (etc1s_levels_events evs) as Hloop;
        pose proof (etc1s_levels_missing_alpha evs level image Ha Hvis Hbad)
          as Hstop;
        destruct (etc1s_levels This hasAlpha prototype outputFormat
                    transcodeFlags evs) as [[e|] s]
    end; simpl in *; [|now elim Hstop].
    apply Hloop. split; repeat constructor. }
  destruct etc1s_events_shape as [_ Hf]. fold xc in Hf.
  destruct (Hf Hfail) as (_ & Hok & Hlast).
  split; [exact Hfail|]. split.
  - intros call r Hin. rewrite Forall_forall in Hok.
    specialize (Hok _ Hin Ha). simpl in Hok. congruence.
  - destruct Hlast as [[Hd _]|(evs0 & i & c & Heq & _)]; [now left|].
    right. eauto.
Qed.

End Etc1s.

(** ** The UASTC worker *)

Section Uastc.
Context {Hdr : KtxHeaders} {Lib : KtxLib} {Engine : BasisTranscoder}.

(** Whatever the engine answers, the UASTC worker returns
    [KTX_SUCCESS]. *)
Lemma uastc_always_succeeds This hasAlpha prototype fmt flags :
  xc_result (ktxTexture2_transcodeUastc This hasAlpha prototype fmt flags)
  = KTX_SUCCESS.
Proof.
  unfold ktxTexture2_transcodeUastc. now destruct (loop_down _ _ _).
Qed.

(** Its image loop never stops early. *)
Lemma uastc_images_run_on This hasAlpha fmt flags level off szIn szOut n i s :
  (loop_up (uastc_image_body This hasAlpha fmt flags level off szIn szOut)
     n i s).1 = None.
Proof.
  revert i s. induction n as [|n IH]; intros i s; simpl; [reflexivity|].
  unfold uastc_image_body at 1.
  destruct (uastc_transcode_image _ _ _). apply IH.
Qed.

Lemma uastc_level_body_writes This hasAlpha prototype fmt flags level s s' :
  uastc_level_body This hasAlpha prototype fmt flags level s = (None, s') ->
  exists size,
    ll_protoLevelIndex s'
    = set_levelIndex (ll_protoLevelIndex s) level (ll_levelOffsetWrite s) size
    /\ ll_levelOffsetWrite s' = u64 (ll_levelOffsetWrite s + size).
Proof.
  unfold uastc_level_body.
  destruct (loop_up _ _ _ _) as [r il]. intros [= <-]. simpl. eauto.
Qed.

(** The UASTC worker gives every level an entry with equal lengths and
    puts the highest level at offset 0, but every other level starts
    exactly where the next higher one ended: no padding is applied. *)
Lemma uastc_level_index_laid_out This hasAlpha prototype fmt flags :
  (level_loop_count This <= length (_levelIndex (_private prototype)))%nat ->
  levels_laid_out (fun x => x) (level_loop_count This)
    (_levelIndex
       (_private
          (xc_prototype
             (ktxTexture2_transcodeUastc This hasAlpha prototype fmt flags))))
    O.
Proof.
  intros Hlen. unfold ktxTexture2_transcodeUastc.
  assert (Hbody : forall l st,
            (uastc_level_body This hasAlpha prototype fmt flags l st).1
            = None).
  { intros l st. unfold uastc_level_body.
    now destruct (loop_up _ _ _ _). }
  match goal with
  | |- context [loop_down ?b ?n ?s0] =>
      pose proof (loop_down_runs_on b Hbody n s0) as Hnone;
      destruct (loop_down b n s0) as [r s] eqn:Hrun
  end; simpl in *. subst r.
  refine (loop_down_lays_out_levels _ _ _ _ _ s _ _ Hrun);
    [|exact Hlen|reflexivity].
  intros level st st'. apply uastc_level_body_writes.
Qed.

End Uastc.

(** ** Runs on concrete textures *)

Section Runs.
Import Fixture.

(** C1 at a failing input: every per-image call on a 2x2 UASTC texture
    with two levels fails with [KTX_TRANSCODE_FAILED]; the second call is
    made all the same, the entry point returns [KTX_SUCCESS] and the
    texture is committed to the target format. *)
Theorem uastc_engine_error_ignored :
  let o := @ktxTexture2_TranscodeBasis headers lib
             (engine KTX_TRANSCODE_FAILED) (mkGlobals false)
             uastc_2x2_mips KTX_TTF_RGB565 0 in
  uastc_results (to_events o) = [KTX_TRANSCODE_FAILED; KTX_TRANSCODE_FAILED]
  /\ to_result o = KTX_SUCCESS
  /\ vkFormat (to_This o) = VK_FORMAT_R5G6B5_UNORM_PACK16.
Proof. vm_compute. auto. Qed.

(** C2, as stated, fails: a call on a texture with a pending load fails in
    the ETC1S worker after the load put the image data in place. *)
Lemma pending_load_survives_failure :
  let o := @ktxTexture2_TranscodeBasis headers lib (engine KTX_SUCCESS)
             (mkGlobals false) etc1s_pending KTX_TTF_RGBA32 0 in
  to_result o = KTX_FILE_DATA_ERROR
  /\ pData etc1s_pending = None
  /\ pData (to_This o) = Some (replicate 16 7).
Proof. vm_compute. auto. Qed.

Lemma failure_leaves_source_unchanged_witness :
  let o := @ktxTexture2_TranscodeBasis headers lib (engine KTX_SUCCESS)
             (mkGlobals false) etc1s_no_endpoints KTX_TTF_RGBA32 0 in
  to_result o <> KTX_SUCCESS
  /\ (to_This o = etc1s_no_endpoints
      \/ (pData etc1s_no_endpoints = None
          /\ @ktxTexture_isActiveStream lib etc1s_no_endpoints = true
          /\ to_This o
             = (@ktxTexture2_LoadImageData lib etc1s_no_endpoints).2)).
Proof.
  assert (Hfail :
    to_result (@ktxTexture2_TranscodeBasis headers lib (engine KTX_SUCCESS)
                 (mkGlobals false) etc1s_no_endpoints KTX_TTF_RGBA32 0)
    <> KTX_SUCCESS) by (vm_compute; discriminate).
  split; [exact Hfail|].
  exact (@failure_leaves_source_unchanged headers lib (engine KTX_SUCCESS)
           (mkGlobals false) etc1s_no_endpoints KTX_TTF_RGBA32 0 Hfail).
Defined.

(** C3, as stated, fails twice on a 3x3 texture: a PVRTC2 target is
    transcoded, and a PVRTC1 target asked for with the
    decode-to-next-power-of-two flag is answered with
    [KTX_UNSUPPORTED_FEATURE]. *)
Lemma PVRTC_on_3x3_not_invalid_operation :
  isPow2 (baseWidth uastc_3x3) = false
  /\ to_result (@ktxTexture2_TranscodeBasis headers lib (engine KTX_SUCCESS)
                  (mkGlobals false) uastc_3x3 KTX_TTF_PVRTC2_4_RGB 0)
     = KTX_SUCCESS
  /\ to_result (@ktxTexture2_TranscodeBasis headers lib (engine KTX_SUCCESS)
                  (mkGlobals false) uastc_3x3 KTX_TTF_PVRTC1_4_RGB 2)
     = KTX_UNSUPPORTED_FEATURE.
Proof. vm_compute. auto. Qed.

Lemma PVRTC1_needs_power_of_two_witness :
  let o := @ktxTexture2_TranscodeBasis headers lib (engine KTX_SUCCESS)
             (mkGlobals false) uastc_3x3 KTX_TTF_PVRTC1_4_RGBA 4 in
  to_This o = uastc_3x3 /\ to_events o = []
  /\ (to_result o = KTX_INVALID_OPERATION
      \/ Z.land 4 (@KTX_TF_PVRTC_DECODE_TO_NEXT_POW2 headers) <> 0
         /\ to_result o = KTX_UNSUPPORTED_FEATURE).
Proof.
  apply (@PVRTC1_needs_power_of_two headers lib (engine KTX_SUCCESS)
           (mkGlobals false) uastc_3x3 KTX_TTF_PVRTC1_4_RGBA 4).
  - right. reflexivity.
  - left. reflexivity.
Defined.

(** C4 at a failing input: a 2x2 UASTC texture with two levels goes to
    RGB565, whose levels are to be aligned to 4 bytes.  Level 1 (2 bytes)
    is at offset 0 and level 0 (8 bytes) at offset 2, not at 4; the data is
    12 bytes long. *)
Theorem uastc_levels_not_padded :
  let o := @ktxTexture2_TranscodeBasis headers lib (engine KTX_SUCCESS)
             (mkGlobals false) uastc_2x2_mips KTX_TTF_RGB565 0 in
  to_result o = KTX_SUCCESS
  /\ _requiredLevelAlignment (_private (to_This o)) = 4
  /\ _levelIndex (_private (to_This o))
     = [mkLevelIndexEntry 2 8 8; mkLevelIndexEntry 0 2 2]
  /\ dataSize (to_This o) = 12
  /\ level_index_consistent (to_This o) = false.
Proof. vm_compute. auto 6. Qed.

(** The same shape and target on the ETC1S path: level 0 starts at the
    padded end of level 1. *)
Example etc1s_levels_padded :
  let o := @ktxTexture2_TranscodeBasis headers lib (engine KTX_SUCCESS)
             (mkGlobals false) etc1s_2x2_mips KTX_TTF_RGB565 0 in
  to_result o = KTX_SUCCESS
  /\ _levelIndex (_private (to_This o))
     = [mkLevelIndexEntry 4 8 8; mkLevelIndexEntry 0 2 2]
  /\ dataSize (to_This o) = 12
  /\ level_index_consistent (to_This o) = true.
Proof. vm_compute. auto 6. Qed.

(** A 4x4 opaque ETC1S texture of one level and one layer goes to RGBA32:
    level 0 is 4 * 4 * 4 bytes long and the format tag is the RGBA one of
    the source's (linear) colour space. *)
Example etc1s_4x4_to_RGBA32 :
  let o := @ktxTexture2_TranscodeBasis headers lib (engine KTX_SUCCESS)
             (mkGlobals false) etc1s_4x4 KTX_TTF_RGBA32 0 in
  to_result o = KTX_SUCCESS
  /\ vkFormat (to_This o) = VK_FORMAT_R8G8B8A8_UNORM
  /\ supercompressionScheme (to_This o) = KTX_SS_NONE
  /\ _levelIndex (_private (to_This o)) = [mkLevelIndexEntry 0 64 64]
  /\ dataSize (to_This o) = 64.
Proof. vm_compute. auto 6. Qed.

(** C9 at a failing input: two calls in a row, both successful, run
    [basisu_transcoder_init] twice. *)
Theorem transcoder_init_runs_again :
  let rq := mkRequest uastc_2x2_mips KTX_TTF_RGB565 0 in
  count_init (@run_calls headers lib (engine KTX_SUCCESS) (mkGlobals false)
                [rq; rq]) = 2%nat.
Proof. vm_compute. reflexivity. Qed.

(** The two ways of C7 on concrete global data: no endpoints, and tables
    that would end at byte 60 of 59. *)
Lemma etc1s_corrupt_global_data_rejected_witness :
  @ktxTexture2_transcodeEtc1s headers lib (engine KTX_SUCCESS)
    etc1s_no_endpoints false (rgba32_prototype etc1s_no_endpoints)
    KTX_TTF_RGBA32 0
  = mkXcode KTX_FILE_DATA_ERROR (rgba32_prototype etc1s_no_endpoints) []
  /\ @ktxTexture2_transcodeEtc1s headers lib (engine KTX_SUCCESS)
       etc1s_tables_overflow false (rgba32_prototype etc1s_tables_overflow)
       KTX_TTF_RGBA32 0
     = mkXcode KTX_FILE_DATA_ERROR (rgba32_prototype etc1s_tables_overflow)
         [].
Proof.
  split.
  - apply (@etc1s_corrupt_global_data_rejected headers lib
             (engine KTX_SUCCESS) etc1s_no_endpoints).
    left. reflexivity.
  - apply (@etc1s_corrupt_global_data_rejected headers lib
             (engine KTX_SUCCESS) etc1s_tables_overflow).
    right. right. right. reflexivity.
Defined.

(** C8, as stated, fails: image 1 of a two-layer texture has no alpha
    slice described, but the engine fails on image 0 first and its error
    is what comes back. *)
Lemma engine_error_before_missing_alpha :
  etc1s_visits etc1s_alpha_two_layers 0 1
  /\ alpha_slice_missing
       (imageDescs_at
          (deref_bgd (_supercompressionGlobalData
                        (_private etc1s_alpha_two_layers))) 1) = true
  /\ xc_result
       (@ktxTexture2_transcodeEtc1s headers lib (engine KTX_TRANSCODE_FAILED)
          etc1s_alpha_two_layers true
          (rgba32_prototype etc1s_alpha_two_layers) KTX_TTF_RGBA32 0)
     = KTX_TRANSCODE_FAILED.
Proof.
  split; [|split; reflexivity].
  unfold etc1s_visits. vm_compute. repeat split; try discriminate; lia.
Qed.

Lemma etc1s_missing_alpha_slice_rejected_witness :
  let xc := @ktxTexture2_transcodeEtc1s headers lib (engine KTX_SUCCESS)
              etc1s_alpha_two_layers true
              (rgba32_prototype etc1s_alpha_two_layers) KTX_TTF_RGBA32 0 in
  xc_result xc <> KTX_SUCCESS
  /\ (forall call r, Ev_etc1s_transcode_image 1 call r ∉ xc_events xc)
  /\ (xc_result xc = KTX_FILE_DATA_ERROR
      \/ exists evs0 image' call',
           xc_events xc
           = evs0 ++ [Ev_etc1s_transcode_image image' call' (xc_result xc)]).
Proof.
  apply (@etc1s_missing_alpha_slice_rejected headers lib (engine KTX_SUCCESS)
           etc1s_alpha_two_layers true
           (rgba32_prototype etc1s_alpha_two_layers) KTX_TTF_RGBA32 0 0 1).
  - reflexivity.
  - unfold etc1s_visits. vm_compute. repeat split; try discriminate; lia.
  - reflexivity.
Defined.

Lemma source_hasAlpha_derivation_witness :
  (@source_hasAlpha headers lib etc1s_no_endpoints = true <->
   @ktxTexture2_GetNumComponents lib etc1s_no_endpoints = 2
   \/ @ktxTexture2_GetNumComponents lib etc1s_no_endpoints = 4)
  /\ (@source_hasAlpha headers lib uastc_3x3 = true <->
      @KHR_DFDSVAL_CHANNELID headers (drop 1 (deref_dfd (pDfd uastc_3x3))) 0
      = @KHR_DF_CHANNEL_UASTC_ALPHAPRESENT headers).
Proof.
  split.
  - apply (proj1 (@source_hasAlpha_derivation headers lib
                    etc1s_no_endpoints)).
    reflexivity.
  - apply (proj2 (@source_hasAlpha_derivation headers lib uastc_3x3)).
    discriminate.
Defined.

End Runs.

(** * Further properties of the code *)

(** ** Block counts and powers of two *)

(** The bit trick of [isPow2]: a positive integer shares no bit with its
    predecessor exactly when it is a power of two. *)
Lemma land_pred_zero_iff (x : Z) :
  0 < x -> (Z.land x (x - 1) = 0 <-> exists k, 0 <= k /\ x = 2 ^ k).
Proof.
  intros Hx. split.
  - intros Hland.
    pose proof (Z.log2_spec x Hx) as [Hlo Hhi].
    pose proof (Z.log2_nonneg x) as Hk.
    exists (Z.log2 x). split; [exact Hk|].
    destruct (decide (x = 2 ^ Z.log2 x)) as [Heq|Hne]; [exact Heq|].
    exfalso.
    assert (Hpred : Z.log2 (x - 1) = Z.log2 x).
    { apply Z.log2_unique; [exact Hk|]. lia. }
    assert (Hb1 : Z.testbit x (Z.log2 x) = true) by now apply Z.bit_log2.
    assert (Hb2 : Z.testbit (x - 1) (Z.log2 x) = true).
    { rewrite <- Hpred. apply Z.bit_log2.
      pose proof (Z.pow_pos_nonneg 2 (Z.log2 x) ltac:(lia) Hk). lia. }
    assert (Hb : Z.testbit (Z.land x (x - 1)) (Z.log2 x) = true).
    { rewrite Z.land_spec, Hb1, Hb2. reflexivity. }
    rewrite Hland, Z.bits_0 in Hb. discriminate.
  - intros (k & Hk & ->).
    replace (2 ^ k - 1) with (Z.ones k) by (rewrite Z.ones_equiv; lia).
    rewrite Z.land_ones by exact Hk. apply Z.mod_same.
    pose proof (Z.pow_pos_nonneg 2 k ltac:(lia) Hk). lia.
Qed.

(** X1: on the values of a [uint32_t], [isPow2] holds exactly of the
    powers of two 2^0, ..., 2^31; in particular not of 0. *)
Theorem isPow2_iff_power_of_two (x : Z) :
  0 <= x < 2 ^ 32 ->
  (isPow2 x = true <-> exists k, 0 <= k < 32 /\ x = 2 ^ k).
Proof.
  intros Hx. unfold isPow2.
  rewrite andb_true_iff, negb_true_iff, Z.eqb_neq, Z.eqb_eq.
  split.
  - intros [Hnz Hland].
    assert (Hu : u32 (x - 1) = x - 1) by (unfold u32; apply Z.mod_small; lia).
    rewrite Hu in Hland.
    apply land_pred_zero_iff in Hland as (k & Hk & ->); [|lia].
    exists k. split; [|reflexivity]. split; [exact Hk|].
    apply (Z.pow_lt_mono_r_iff 2); lia.
  - intros (k & [Hk Hk32] & ->).
    pose proof (Z.pow_pos_nonneg 2 k ltac:(lia) Hk) as Hpos.
    split; [lia|].
    assert (Hu : u32 (2 ^ k - 1) = 2 ^ k - 1).
    { unfold u32. apply Z.mod_small.
      pose proof (Z.pow_lt_mono_r 2 k 32 ltac:(lia) ltac:(lia) Hk32). lia. }
    rewrite Hu. apply land_pred_zero_iff; [lia|]. eauto.
Qed.

Lemma isPow2_iff_power_of_two_witness :
  0 <= 64 < 2 ^ 32
  /\ (isPow2 64 = true <-> exists k, 0 <= k < 32 /\ 64 = 2 ^ k).
Proof.
  assert (Hr : 0 <= 64 < 2 ^ 32) by lia.
  split; [exact Hr|]. exact (isPow2_iff_power_of_two 64 Hr).
Defined.

(** X2: the [uint64_t] overload holds exactly of 2^0, ..., 2^63. *)
Theorem isPow2_u64_iff_power_of_two (x : Z) :
  0 <= x < 2 ^ 64 ->
  (isPow2_u64 x = true <-> exists k, 0 <= k < 64 /\ x = 2 ^ k).
Proof.
  intros Hx. unfold isPow2_u64.
  rewrite andb_true_iff, negb_true_iff, Z.eqb_neq, Z.eqb_eq.
  split.
  - intros [Hnz Hland].
    rewrite u64_small in Hland by lia.
    apply land_pred_zero_iff in Hland as (k & Hk & ->); [|lia].
    exists k. split; [|reflexivity]. split; [exact Hk|].
    apply (Z.pow_lt_mono_r_iff 2); lia.
  - intros (k & [Hk Hk64] & ->).
    pose proof (Z.pow_pos_nonneg 2 k ltac:(lia) Hk) as Hpos.
    split; [lia|].
    rewrite u64_small.
    + apply land_pred_zero_iff; [lia|]. eauto.
    + pose proof (Z.pow_lt_mono_r 2 k 64 ltac:(lia) ltac:(lia) Hk64). lia.
Qed.

Lemma isPow2_u64_iff_power_of_two_witness :
  0 <= 2 ^ 40 < 2 ^ 64
  /\ (isPow2_u64 (2 ^ 40) = true
      <-> exists k, 0 <= k < 64 /\ 2 ^ 40 = 2 ^ k).
Proof.
  assert (Hr : 0 <= 2 ^ 40 < 2 ^ 64) by lia.
  split; [exact Hr|]. exact (isPow2_u64_iff_power_of_two (2 ^ 40) Hr).
Defined.

(** X3: as long as [w + (bw - 1)] fits a [uint32_t], [getBlockWidth] and
    [getBlockHeight] give the least number of blocks of size [bw] that
    cover [w] texels. *)
Theorem block_count_covers (w bw : Z) :
  0 < bw -> 0 < w -> w + (bw - 1) < 2 ^ 32 ->
  bw * (getBlockWidth w bw - 1) < w <= bw * getBlockWidth w bw
  /\ getBlockHeight w bw = getBlockWidth w bw.
Proof.
  intros Hbw Hw Hfit. split; [|reflexivity].
  unfold getBlockWidth, u32.
  rewrite (Z.mod_small (bw - 1)) by lia.
  rewrite (Z.mod_small (w + (bw - 1))) by lia.
  pose proof (Z.div_mod (w + (bw - 1)) bw ltac:(lia)) as Hdm.
  pose proof (Z.mod_pos_bound (w + (bw - 1)) bw Hbw) as Hb.
  nia.
Qed.

Lemma block_count_covers_witness :
  0 < 4 /\ 0 < 5 /\ 5 + (4 - 1) < 2 ^ 32
  /\ (4 * (getBlockWidth 5 4 - 1) < 5 <= 4 * getBlockWidth 5 4
      /\ getBlockHeight 5 4 = getBlockWidth 5 4).
Proof.
  assert (H1 : 0 < 4) by lia. assert (H2 : 0 < 5) by lia.
  assert (H3 : 5 + (4 - 1) < 2 ^ 32) by lia.
  repeat split; try lia; apply (block_count_covers 5 4 H1 H2 H3).
Defined.

(** X4: past that bound the sum wraps around: a width above 2^32 - 4 is
    given no 4x4 block at all. *)
Theorem block_count_wraps (w : Z) :
  2 ^ 32 - 4 < w < 2 ^ 32 ->
  getBlockWidth w 4 = 0 /\ getBlockHeight w 4 = 0.
Proof.
  intros Hw. unfold getBlockHeight, getBlockWidth, u32.
  rewrite (Z.mod_small (4 - 1)) by lia.
  replace ((w + (4 - 1)) mod 2 ^ 32) with (w + 3 - 2 ^ 32).
  - split; apply Z.div_small; lia.
  - apply Z.mod_unique with (q := 1); lia.
Qed.

Lemma block_count_wraps_witness :
  2 ^ 32 - 4 < 2 ^ 32 - 1 < 2 ^ 32
  /\ getBlockWidth (2 ^ 32 - 1) 4 = 0 /\ getBlockHeight (2 ^ 32 - 1) 4 = 0.
Proof.
  assert (Hr : 2 ^ 32 - 4 < 2 ^ 32 - 1 < 2 ^ 32) by lia.
  split; [exact Hr|]. exact (block_count_wraps (2 ^ 32 - 1) Hr).
Defined.

(** X5: the level loops count down in an [int32_t]: they run [numLevels]
    times when it is between 1 and 2^31, and not at all when it is 0 or
    above 2^31. *)
Theorem level_loop_count_int32 (This : ktxTexture2) :
  (1 <= numLevels This <= 2 ^ 31 ->
   level_loop_count This = Z.to_nat (numLevels This))
  /\ (numLevels This = 0 \/ 2 ^ 31 < numLevels This < 2 ^ 32 ->
      level_loop_count This = O).
Proof.
  unfold level_loop_count, to_int32, u32. split.
  - intros Hn. rewrite (Z.mod_small (numLevels This - 1)) by lia.
    destruct (_ <? _) eqn:Hlt; [f_equal; lia|].
    apply Z.ltb_ge in Hlt. lia.
  - intros [Hn|Hn].
    + rewrite Hn. reflexivity.
    + rewrite (Z.mod_small (numLevels This - 1)) by lia.
      destruct (_ <? _) eqn:Hlt.
      * apply Z.ltb_lt in Hlt. lia.
      * lia.
Qed.

Lemma level_loop_count_int32_witness :
  level_loop_count Fixture.uastc_2x2_mips = 2%nat
  /\ level_loop_count (Fixture.uastc_texture 2 2 0 1 None []) = O.
Proof.
  split.
  - apply (proj1 (level_loop_count_int32 Fixture.uastc_2x2_mips)).
    simpl. lia.
  - apply (proj2 (level_loop_count_int32
                    (Fixture.uastc_texture 2 2 0 1 None []))).
    left. reflexivity.
Defined.

(** ** Format mapping *)

(** X6: the first switch settles the target once and for all: mapping a
    mapped target changes nothing, no mapped target is one of the two
    automatic choices, and without alpha none is a PVRTC RGBA target. *)
Theorem map_outputFormat_settles (hasAlpha : bool) fmt :
  map_outputFormat hasAlpha (map_outputFormat hasAlpha fmt)
  = map_outputFormat hasAlpha fmt
  /\ map_outputFormat hasAlpha fmt <> KTX_TTF_ETC
  /\ map_outputFormat hasAlpha fmt <> KTX_TTF_BC1_OR_3
  /\ map_outputFormat false fmt <> KTX_TTF_PVRTC1_4_RGBA
  /\ map_outputFormat false fmt <> KTX_TTF_PVRTC2_4_RGBA.
Proof. destruct fmt, hasAlpha; simpl; repeat split; discriminate. Qed.

(** X7: the two switches together accept every named target and nothing
    else: no Vulkan format is found exactly for the values outside the
    enumeration. *)
Theorem unsupported_iff_unnamed (srgb hasAlpha : bool) fmt :
  select_vkFormat srgb (map_outputFormat hasAlpha fmt) = None
  <-> exists code, fmt = KTX_TTF_other code.
Proof.
  split.
  - destruct fmt, hasAlpha; simpl; try discriminate; eauto.
  - intros [code ->]. reflexivity.
Qed.

(** The format selected never is [VK_FORMAT_UNDEFINED]. *)
Lemma select_vkFormat_defined (srgb : bool) fmt vk :
  select_vkFormat srgb fmt = Some vk -> vk <> VK_FORMAT_UNDEFINED.
Proof.
  destruct fmt, srgb; simpl; intros Hvk; try discriminate Hvk;
    injection Hvk as <-; discriminate.
Qed.

Section EntryPointMore.
Context {Hdr : KtxHeaders} {Lib : KtxLib} {Engine : BasisTranscoder}.

(** X8: a target outside the enumeration is turned down before anything
    is created, loaded or asked of the engine: the texture is returned as
    it came, and the result is [KTX_INVALID_VALUE] unless one of the
    earlier checks answered [KTX_INVALID_OPERATION] or
    [KTX_UNSUPPORTED_FEATURE]. *)
Theorem unnamed_target_rejected g (This : ktxTexture2) (code flags : Z) :
  let o := ktxTexture2_TranscodeBasis g This (KTX_TTF_other code) flags in
  to_This o = This /\ to_events o = [] /\ to_globals o = g
  /\ (to_result o = KTX_INVALID_VALUE
      \/ to_result o = KTX_INVALID_OPERATION
      \/ to_result o = KTX_UNSUPPORTED_FEATURE).
Proof.
  unfold ktxTexture2_TranscodeBasis.
  destruct (negb (KHR_DFDVAL_MODEL _ =? _) && _); [simpl; auto 6|].
  destruct (bool_decide _ && (_ || _)); [simpl; auto 6|].
  destruct (negb (Z.land _ _ =? 0)); [simpl; auto 6|].
  simpl. auto 6.
Qed.

(** X9: the assertion of line 196.  A call that is not turned down with
    [KTX_INVALID_OPERATION] is on a Basis Universal texture with global
    data of nonzero length attached, or else on one whose colour model is
    UASTC. *)
Theorem transcodable_source g (This : ktxTexture2) fmt (flags : Z) :
  to_result (ktxTexture2_TranscodeBasis g This fmt flags)
  <> KTX_INVALID_OPERATION ->
  (supercompressionScheme This = KTX_SS_BASIS_UNIVERSAL
   /\ is_Some (_supercompressionGlobalData (_private This))
   /\ _sgdByteLength (_private This) <> 0)
  \/ (supercompressionScheme This <> KTX_SS_BASIS_UNIVERSAL
      /\ KHR_DFDVAL_MODEL (drop 1 (deref_dfd (pDfd This)))
         = KHR_DF_MODEL_UASTC).
Proof.
  unfold ktxTexture2_TranscodeBasis.
  destruct (KHR_DFDVAL_MODEL _ =? _) eqn:Hmodel;
    destruct (decide (supercompressionScheme This = KTX_SS_BASIS_UNIVERSAL))
      as [Hbu|Hbu];
    try rewrite (bool_decide_eq_true_2 _ Hbu);
    try rewrite (bool_decide_eq_false_2 _ Hbu); simpl.
  - destruct (_supercompressionGlobalData (_private This)) as [bgd|] eqn:Hsgd;
      simpl; [|congruence].
    destruct (_sgdByteLength (_private This) =? 0) eqn:Hlen;
      simpl; [congruence|].
    apply Z.eqb_neq in Hlen. intros _. left. eauto.
  - apply Z.eqb_eq in Hmodel. intros _. right. auto.
  - destruct (_supercompressionGlobalData (_private This)) as [bgd|] eqn:Hsgd;
      simpl; [|congruence].
    destruct (_sgdByteLength (_private This) =? 0) eqn:Hlen;
      simpl; [congruence|].
    apply Z.eqb_neq in Hlen. intros _. left. eauto.
  - congruence.
Qed.

End EntryPointMore.

(** ** Which images the workers hand to the engine *)

Section LoopLogs.
Context {S A : Type}.
Implicit Types (body : Z -> S -> option KTX_error_code * S).

(** A loop that runs to its end and whose every iteration appends one
    entry to a log has appended one entry per counter value, in order. *)
Lemma loop_up_log body (f : S -> list A) (g : Z -> A) :
  (forall i s s', body i s = (None, s') -> f s' = f s ++ [g i]) ->
  forall n i s s', loop_up body n i s = (None, s') ->
    f s' = f s ++ (g <$> seqZ i (Z.of_nat n)).
Proof.
  intros Hstep n. induction n as [|n IH]; intros i s s' Hrun; simpl in Hrun.
  - injection Hrun as <-. rewrite seqZ_nil by lia. simpl.
    now rewrite app_nil_r.
  - destruct (body i s) as [[e|] s1] eqn:Hb; [discriminate|].
    rewrite (IH _ _ _ Hrun), (Hstep _ _ _ Hb).
    rewrite (seqZ_cons i) by lia.
    replace (Z.succ i) with (i + 1) by lia.
    replace (Z.pred (Z.of_nat (Datatypes.S n))) with (Z.of_nat n) by lia.
    now rewrite <- app_assoc.
Qed.

(** The same for the descending loop over the levels, whose iterations
    append a list each. *)
Lemma loop_down_log body (f : S -> list A) (h : Z -> list A) :
  (forall l s s', body l s = (None, s') -> f s' = f s ++ h l) ->
  forall n s s', loop_down body n s = (None, s') ->
    f s' = f s ++ concat (h <$> levels_down n).
Proof.
  intros Hstep n. induction n as [|n IH]; intros s s' Hrun; simpl in Hrun.
  - injection Hrun as <-. simpl. now rewrite app_nil_r.
  - destruct (body (Z.of_nat n) s) as [[e|] s1] eqn:Hb; [discriminate|].
    rewrite (IH _ _ Hrun), (Hstep _ _ _ Hb).
    unfold levels_down. rewrite seq_S, rev_app_distr. simpl.
    now rewrite <- app_assoc.
Qed.

End LoopLogs.

Lemma uastc_call_ids_app (l1 l2 : list engine_event) :
  uastc_call_ids (l1 ++ l2) = uastc_call_ids l1 ++ uastc_call_ids l2.
Proof.
  induction l1 as [|ev l1 IH]; simpl; [reflexivity|].
  destruct ev; simpl; now rewrite IH.
Qed.

Lemma etc1s_call_ids_app (l1 l2 : list engine_event) :
  etc1s_call_ids (l1 ++ l2) = etc1s_call_ids l1 ++ etc1s_call_ids l2.
Proof.
  induction l1 as [|ev l1 IH]; simpl; [reflexivity|].
  destruct ev; simpl; now rewrite IH.
Qed.

Lemma seqZ_to_nat (m d : Z) : seqZ m (Z.of_nat (Z.to_nat d)) = seqZ m d.
Proof.
  destruct (decide (0 <= d)) as [Hd|Hd].
  - now rewrite Z2Nat.id.
  - rewrite !seqZ_nil; [reflexivity|lia|lia].
Qed.

(** X10: the two computations of the number of images of a level agree,
    so the images of the levels follow one another in the image
    descriptions without gap or overlap: the image after the last one of a
    level is the first one of the next level, as the ETC1S loops compute
    them in [uint32_t]. *)
Theorem etc1s_levels_contiguous (This : ktxTexture2) (level : nat) :
  u32 (firstImages This level + etc1s_numImages This (Z.of_nat level))
  = firstImages This (Datatypes.S level)
  /\ etc1s_numImages This (Z.of_nat level)
     = uastc_levelImageCount This (Z.of_nat level).
Proof.
  assert (Hmax : forall x, MAX x 1 = MAX 1 x).
  { intros x. unfold MAX. destruct (x >? 1) eqn:H1; destruct (1 >? x) eqn:H2;
      rewrite ?Z.gtb_ltb in *; try apply Z.ltb_lt in H1;
      try apply Z.ltb_lt in H2; try apply Z.ltb_ge in H1;
      try apply Z.ltb_ge in H2; lia. }
  assert (Hnum : etc1s_numImages This (Z.of_nat level)
                 = uastc_levelImageCount This (Z.of_nat level)).
  { unfold etc1s_numImages, uastc_levelImageCount, u32.
    rewrite Z.mul_mod_idemp_r, Z.mul_mod_idemp_l by lia.
    now rewrite Z.mul_assoc. }
  split; [|exact Hnum].
  rewrite Hnum. simpl. unfold uastc_levelImageCount. now rewrite Hmax.
Qed.

Section CallIds.
Context {Hdr : KtxHeaders} {Lib : KtxLib} {Engine : BasisTranscoder}.

(** X11: the UASTC worker hands every image of every level to the engine
    exactly once: the levels from the highest down to level 0, and in each
    the images 0, 1, ... up to the number of layers times faces times
    depth slices of the level. *)
Theorem uastc_calls_every_image_once This hasAlpha prototype fmt flags :
  uastc_call_ids
    (xc_events (ktxTexture2_transcodeUastc This hasAlpha prototype fmt flags))
  = concat ((fun level =>
               level_images level 0 (uastc_levelImageCount This level))
            <$> levels_down (level_loop_count This)).
Proof.
  unfold ktxTexture2_transcodeUastc.
  assert (Hbody : forall l st,
            (uastc_level_body This hasAlpha prototype fmt flags l st).1
            = None).
  { intros l st. unfold uastc_level_body.
    now destruct (loop_up _ _ _ _). }
  match goal with
  | |- context [loop_down ?b ?n ?s0] =>
      pose proof (loop_down_runs_on b Hbody n s0) as Hnone;
      destruct (loop_down b n s0) as [r s] eqn:Hrun
  end; simpl in *. subst r.
  eapply (loop_down_log _ (fun st => uastc_call_ids (ll_events st))) in Hrun.
  - exact Hrun.
  - clear. intros level st st'. unfold uastc_level_body.
    match goal with
    | |- context [loop_up ?b ?n ?i ?s0] =>
        pose proof (uastc_images_run_on This hasAlpha fmt flags level
                      (ktxTexture2_levelDataOffset This level)
                      (ktxTexture_calcImageSize This level)
                      (ktxTexture_calcImageSize prototype level) n i s0)
          as Hnone;
        destruct (loop_up b n i s0) as [r il] eqn:Hrun
    end; simpl in Hnone. subst r. intros [= <-]. simpl.
    eapply (loop_up_log _ (fun st => uastc_call_ids (il_events st))
              (fun image => (level, image))) in Hrun.
    + rewrite Hrun. simpl. unfold level_images.
      now rewrite seqZ_to_nat.
    + clear. intros i s s'. unfold uastc_image_body.
      destruct (uastc_transcode_image _ _ _) as [result data].
      intros [= <-]. simpl. now rewrite uastc_call_ids_app.
Qed.

(** X12: when the ETC1S worker succeeds it has handed every image of
    every level to the engine exactly once, the levels from the highest
    down to level 0 and the images of a level from its first image on. *)
Theorem etc1s_success_calls_every_image_once This hasAlpha prototype fmt
    flags :
  xc_result (ktxTexture2_transcodeEtc1s This hasAlpha prototype fmt flags)
  = KTX_SUCCESS ->
  etc1s_call_ids
    (xc_events (ktxTexture2_transcodeEtc1s This hasAlpha prototype fmt flags))
  = concat ((fun level =>
               let first := firstImages This (Z.to_nat level) in
               level_images level first
                 (u32 (first + etc1s_numImages This level) - first))
            <$> levels_down (level_loop_count This)).
Proof.
  unfold ktxTexture2_transcodeEtc1s.
  destruct (negb _); [discriminate|].
  destruct (_ >? _); [discriminate|].
  match goal with
  | |- context [etc1s_levels _ _ _ _ _ ?evs] =>
      pose proof (etc1s_levels_events This hasAlpha prototype fmt flags evs)
        as Hloop;
      destruct (etc1s_levels This hasAlpha prototype fmt flags evs)
        as [[e|] s] eqn:Hrun
  end; simpl.
  - intros ->. destruct Hloop as [Hne _]; [split; repeat constructor|].
    now elim Hne.
  - intros _. unfold etc1s_levels in Hrun.
    eapply (loop_down_log _ (fun st => etc1s_call_ids (ll_events st)))
      in Hrun.
    + exact Hrun.
    + clear. intros level st st'. unfold etc1s_level_body.
      destruct (loop_up _ _ _ _) as [[e|] il] eqn:Hrun; [discriminate|].
      intros [= <-]. simpl.
      eapply (loop_up_log _ (fun st => etc1s_call_ids (il_events st))
                (fun image => (level, image))) in Hrun.
      * rewrite Hrun. simpl. unfold level_images, etc1s_numImages.
        now rewrite seqZ_to_nat.
      * clear. intros i s s'. unfold etc1s_image_body.
        destruct (hasAlpha && _); [discriminate|].
        destruct (etc1s_transcode_image _ _ _ _) as [result data].
        destruct (decide _); [|discriminate].
        intros [= <-]. simpl. now rewrite etc1s_call_ids_app.
Qed.

End CallIds.

(** ** Arithmetic modulo 2^64 *)

Lemma u64_add_idemp_l (a b : Z) : u64 (u64 a + b) = u64 (a + b).
Proof. unfold u64. apply Z.add_mod_idemp_l. lia. Qed.

Lemma u64_add_idemp_r (a b : Z) : u64 (a + u64 b) = u64 (a + b).
Proof. unfold u64. apply Z.add_mod_idemp_r. lia. Qed.

Lemma u64_idemp (a : Z) : u64 (u64 a) = u64 a.
Proof. unfold u64. apply Z.mod_mod. lia. Qed.

Lemma u64_add_cong_l (a b c : Z) : u64 a = u64 b -> u64 (a + c) = u64 (b + c).
Proof.
  intros Hab. rewrite <- (u64_add_idemp_l a), <- (u64_add_idemp_l b).
  now rewrite Hab.
Qed.

(** ** Offsets and capacities handed to the engine *)

Section Offsets.
Context {Hdr : KtxHeaders} {Lib : KtxLib} {Engine : BasisTranscoder}.

(** X13: the assertion of line 573, [levelOffsetWrite == writeOffset].
    However the images loop of the ETC1S worker is left, the write offset
    it reached is the offset the level started at plus the size it summed
    up for the level. *)
Theorem etc1s_writeOffset_assertion This hasAlpha prototype fmt flags
    level levelOffset levelImageSizeOut n image s r il :
  0 <= il_writeOffset s < 2 ^ 64 ->
  il_levelSizeOut s = 0 ->
  loop_up
    (etc1s_image_body This hasAlpha prototype fmt flags level levelOffset
       levelImageSizeOut) n image s = (r, il) ->
  u64 (il_writeOffset s + il_levelSizeOut il) = il_writeOffset il.
Proof.
  intros Hrange Hzero Hrun.
  pose (P := fun (_ : Z) (st : image_loop_state) =>
               u64 (il_writeOffset s + il_levelSizeOut st)
               = il_writeOffset st).
  pose proof (loop_up_inv
                (etc1s_image_body This hasAlpha prototype fmt flags level
                   levelOffset levelImageSizeOut)
                P (fun _ st => P 0 st)) as Hinv.
  assert (Hstep : forall i st, P i st ->
            match etc1s_image_body This hasAlpha prototype fmt flags level
                    levelOffset levelImageSizeOut i st with
            | (Some _, st') => P 0 st'
            | (None, st') => P (i + 1) st'
            end).
  { intros i st HP. unfold etc1s_image_body.
    destruct (hasAlpha && _); [exact HP|].
    destruct (etc1s_transcode_image _ _ _ _) as [result data].
    destruct (decide _); [|exact HP].
    unfold P in *. simpl.
    rewrite u64_add_idemp_r, Z.add_assoc, <- HP.
    now rewrite u64_add_idemp_l. }
  specialize (Hinv Hstep n image s). rewrite Hrun in Hinv.
  assert (H0 : P image s).
  { unfold P. rewrite Hzero, Z.add_0_r. now apply u64_small. }
  specialize (Hinv H0). now destruct r.
Qed.

(** The images loop of the UASTC worker keeps the write offset and the
    capacity adding up to the size of the data, and the write offset at
    the start of the level plus the size summed up. *)
Lemma uastc_images_fit This hasAlpha fmt flags level off szIn szOut
    (D lw : Z) n i s r il :
  u64 (il_writeOffset s + il_bufferByteLength s) = u64 D ->
  u64 (il_writeOffset s) = u64 (lw + il_levelSizeOut s) ->
  Forall (uastc_event_fits D) (il_events s) ->
  loop_up (uastc_image_body This hasAlpha fmt flags level off szIn szOut)
    n i s = (r, il) ->
  u64 (il_writeOffset il + il_bufferByteLength il) = u64 D
  /\ u64 (il_writeOffset il) = u64 (lw + il_levelSizeOut il)
  /\ Forall (uastc_event_fits D) (il_events il).
Proof.
  revert i s. induction n as [|n IH]; intros i s Hfit Hsum Hall Hrun;
    simpl in Hrun.
  - injection Hrun as _ <-. auto.
  - unfold uastc_image_body at 1 in Hrun.
    destruct (uastc_transcode_image _ _ _) as [result data].
    apply IH in Hrun; [exact Hrun| | |]; simpl.
    + rewrite u64_add_idemp_l, u64_add_idemp_r. rewrite <- Hfit.
      f_equal. lia.
    + rewrite u64_idemp, u64_add_idemp_r, Z.add_assoc.
      now apply u64_add_cong_l.
    + apply Forall_app. split; [exact Hall|].
      repeat constructor. exact Hfit.
Qed.

(** X14: every per-image call of the UASTC worker is given exactly the
    rest of the destination buffer: its write offset and the capacity it
    is told add up to the size of the prototype's data (in 64-bit
    arithmetic). *)
Theorem uastc_calls_get_rest_of_buffer This hasAlpha prototype fmt flags :
  Forall (uastc_event_fits (dataSize prototype))
    (xc_events (ktxTexture2_transcodeUastc This hasAlpha prototype fmt flags)).
Proof.
  unfold ktxTexture2_transcodeUastc.
  pose (P := fun (_ : nat) (st : level_loop_state) =>
               u64 (ll_levelOffsetWrite st + ll_bufferByteLength st)
               = u64 (dataSize prototype)
               /\ Forall (uastc_event_fits (dataSize prototype))
                    (ll_events st)).
  match goal with
  | |- context [loop_down ?b ?n ?s0] =>
      pose proof (loop_down_inv b P (fun _ st => P O st)) as Hinv;
      assert (Hstep : forall m st, P (Datatypes.S m) st ->
                match b (Z.of_nat m) st with
                | (Some _, st') => P O st'
                | (None, st') => P m st'
                end);
      [|specialize (Hinv Hstep n s0);
        destruct (loop_down b n s0) as [r s]]
  end.
  - intros m st [Hfit Hall]. unfold uastc_level_body.
    destruct (loop_up _ _ _ _) as [r il] eqn:Hrun.
    apply (uastc_images_fit _ _ _ _ _ _ _ _ (dataSize prototype)
             (ll_levelOffsetWrite st)) in Hrun
      as (Hfit' & Hsum' & Hall'); simpl;
      [|exact Hfit|now rewrite Z.add_0_r|exact Hall].
    split; simpl; [|exact Hall'].
    rewrite u64_add_idemp_l. rewrite <- Hfit'.
    apply u64_add_cong_l. now rewrite Hsum'.
  - simpl. assert (H0 : P (level_loop_count This)
                          {| ll_levelOffsetWrite := 0;
                             ll_bufferByteLength := dataSize prototype;
                             ll_protoLevelIndex :=
                               _levelIndex (_private prototype);
                             ll_xcodedData := pData prototype;
                             ll_events := [] |}).
    { split; simpl; [reflexivity|constructor]. }
    specialize (Hinv H0). destruct r; apply Hinv.
Qed.

End Offsets.

(** ** What the workers leave of the prototype *)

Lemma set_prototype_same (p : ktxTexture2) :
  set_prototype p (_levelIndex (_private p)) (pData p) = p.
Proof. destruct p as [? ? ? ? ? ? ? ? ? ? ? ? ? ? ? ? ? []]. reflexivity. Qed.

Lemma length_set_levelIndex idx level offset size :
  length (set_levelIndex idx level offset size) = length idx.
Proof. unfold set_levelIndex. apply length_insert. Qed.

Section Frame.
Context {Hdr : KtxHeaders} {Lib : KtxLib} {Engine : BasisTranscoder}.

Lemma etc1s_level_body_length This hasAlpha prototype fmt flags level s :
  length (ll_protoLevelIndex
            (etc1s_level_body This hasAlpha prototype fmt flags level s).2)
  = length (ll_protoLevelIndex s).
Proof.
  unfold etc1s_level_body.
  destruct (loop_up _ _ _ _) as [[e|] il]; simpl; [reflexivity|].
  apply length_set_levelIndex.
Qed.

Lemma uastc_level_body_length This hasAlpha prototype fmt flags level s :
  length (ll_protoLevelIndex
            (uastc_level_body This hasAlpha prototype fmt flags level s).2)
  = length (ll_protoLevelIndex s).
Proof.
  unfold uastc_level_body.
  destruct (loop_up _ _ _ _) as [r il]; simpl.
  apply length_set_levelIndex.
Qed.

Lemma loop_down_length body n s :
  (forall level st,
     length (ll_protoLevelIndex (body level st).2)
     = length (ll_protoLevelIndex st)) ->
  length (ll_protoLevelIndex (loop_down body n s).2)
  = length (ll_protoLevelIndex s).
Proof.
  intros Hbody. revert s. induction n as [|n IH]; intros s; simpl;
    [reflexivity|].
  specialize (Hbody (Z.of_nat n) s).
  destruct (body (Z.of_nat n) s) as [[e|] s']; simpl in *; [exact Hbody|].
  now rewrite IH.
Qed.

Lemma etc1s_frame This hasAlpha prototype fmt flags :
  exists idx data,
    xc_prototype (ktxTexture2_transcodeEtc1s This hasAlpha prototype fmt flags)
    = set_prototype prototype idx data
    /\ length idx = length (_levelIndex (_private prototype)).
Proof.
  unfold ktxTexture2_transcodeEtc1s.
  destruct (negb _).
  { exists (_levelIndex (_private prototype)), (pData prototype).
    simpl. now rewrite set_prototype_same. }
  destruct (_ >? _).
  { exists (_levelIndex (_private prototype)), (pData prototype).
    simpl. now rewrite set_prototype_same. }
  unfold etc1s_levels.
  match goal with
  | |- context [loop_down ?b ?n ?s0] =>
      pose proof (loop_down_length b n s0
                    (etc1s_level_body_length This hasAlpha prototype fmt
                       flags)) as Hlen;
      destruct (loop_down b n s0) as [r s]
  end; simpl in *. eauto.
Qed.

Lemma uastc_frame This hasAlpha prototype fmt flags :
  exists idx data,
    xc_prototype (ktxTexture2_transcodeUastc This hasAlpha prototype fmt flags)
    = set_prototype prototype idx data
    /\ length idx = length (_levelIndex (_private prototype)).
Proof.
  unfold ktxTexture2_transcodeUastc.
  match goal with
  | |- context [loop_down ?b ?n ?s0] =>
      pose proof (loop_down_length b n s0
                    (uastc_level_body_length This hasAlpha prototype fmt
                       flags)) as Hlen;
      destruct (loop_down b n s0) as [r s]
  end; simpl in *. eauto.
Qed.

(** X15: whatever they return, the two workers change nothing of the
    prototype but the entries of its level index and its data: format,
    geometry, descriptor, data size and alignment are as the factory made
    them, and the level index has as many entries as before. *)
Theorem workers_write_index_and_data_only This hasAlpha prototype fmt flags :
  (exists idx data,
     xc_prototype
       (ktxTexture2_transcodeEtc1s This hasAlpha prototype fmt flags)
     = set_prototype prototype idx data
     /\ length idx = length (_levelIndex (_private prototype)))
  /\ (exists idx data,
        xc_prototype
          (ktxTexture2_transcodeUastc This hasAlpha prototype fmt flags)
        = set_prototype prototype idx data
        /\ length idx = length (_levelIndex (_private prototype))).
Proof. split; [apply etc1s_frame|apply uastc_frame]. Qed.

(** A successful call on a texture with its data in place: the format was
    found, the prototype created, and the texture is the commit of the
    prototype with the level index and data the worker wrote. *)
Lemma TranscodeBasis_success_shape g This fmt flags :
  is_Some (pData This) ->
  to_result (ktxTexture2_TranscodeBasis g This fmt flags) = KTX_SUCCESS ->
  exists vk idx data,
    select_vkFormat (source_srgb This)
      (map_outputFormat (source_hasAlpha This) fmt) = Some vk
    /\ to_This (ktxTexture2_TranscodeBasis g This fmt flags)
       = commit This
           (set_prototype
              (ktxTexture2_Create (make_createInfo This vk)).2 idx data)
           vk.
Proof.
  intros [d Hd]. unfold ktxTexture2_TranscodeBasis.
  destruct (negb (KHR_DFDVAL_MODEL _ =? _) && _); [discriminate|].
  destruct (bool_decide _ && (_ || _)); [discriminate|].
  destruct (negb (Z.land _ _ =? 0)); [discriminate|].
  destruct ((bool_decide _ || bool_decide _) && _); [discriminate|].
  destruct (select_vkFormat _ _) as [vk|]; [|discriminate].
  destruct (ktxTexture2_Create _) as [result prototype] eqn:Hc.
  destruct (negb (bool_decide (result = KTX_SUCCESS))) eqn:Hres.
  { simpl. intros ->. discriminate Hres. }
  unfold ensure_data. rewrite Hd.
  destruct (bool_decide (supercompressionScheme This
                         = KTX_SS_BASIS_UNIVERSAL)); simpl.
  - destruct (etc1s_frame This (source_hasAlpha This) prototype
                (map_outputFormat (source_hasAlpha This) fmt) flags)
      as (idx & data & Hp & _).
    intros Hok. rewrite bool_decide_eq_true_2 by exact Hok.
    rewrite Hp. exists vk, idx, data. rewrite Hc. auto.
  - destruct (uastc_frame This (source_hasAlpha This) prototype
                (map_outputFormat (source_hasAlpha This) fmt) flags)
      as (idx & data & Hp & _).
    intros Hok. rewrite bool_decide_eq_true_2 by exact Hok.
    rewrite Hp. exists vk, idx, data. rewrite Hc. auto.
Qed.

(** X16: after a successful call on a texture with its data in place, the
    format metadata of the texture is that of the prototype the factory
    made for the format found: the Vulkan format, never
    [VK_FORMAT_UNDEFINED], the compressed flag, the DFD, the data size, the
    format size and the required level alignment; and the
    supercompression scheme is [KTX_SS_NONE]. *)
Theorem success_takes_prototype_format g This fmt flags :
  is_Some (pData This) ->
  to_result (ktxTexture2_TranscodeBasis g This fmt flags) = KTX_SUCCESS ->
  exists vk,
    select_vkFormat (source_srgb This)
      (map_outputFormat (source_hasAlpha This) fmt) = Some vk
    /\ let proto := (ktxTexture2_Create (make_createInfo This vk)).2 in
       let T := to_This (ktxTexture2_TranscodeBasis g This fmt flags) in
       vkFormat T = vk /\ vk <> VK_FORMAT_UNDEFINED
       /\ supercompressionScheme T = KTX_SS_NONE
       /\ isCompressed T = isCompressed proto
       /\ pDfd T = pDfd proto
       /\ dataSize T = dataSize proto
       /\ _formatSize (_protected T) = _formatSize (_protected proto)
       /\ _requiredLevelAlignment (_private T)
          = _requiredLevelAlignment (_private proto).
Proof.
  intros Hdata Hok.
  destruct (TranscodeBasis_success_shape g This fmt flags Hdata Hok)
    as (vk & idx & data & Hvk & ->).
  exists vk. split; [exact Hvk|]. simpl.
  repeat split. now apply select_vkFormat_defined in Hvk.
Qed.

(** X17: such a call keeps the geometry of the texture and, although the
    scheme is reset to [KTX_SS_NONE], the supercompression global data and
    its length: they stay attached to the transcoded texture. *)
Theorem success_keeps_geometry_and_global_data g This fmt flags :
  is_Some (pData This) ->
  to_result (ktxTexture2_TranscodeBasis g This fmt flags) = KTX_SUCCESS ->
  let T := to_This (ktxTexture2_TranscodeBasis g This fmt flags) in
  baseWidth T = baseWidth This /\ baseHeight T = baseHeight This
  /\ baseDepth T = baseDepth This /\ numDimensions T = numDimensions This
  /\ numLevels T = numLevels This /\ numLayers T = numLayers This
  /\ numFaces T = numFaces This /\ isArray T = isArray This
  /\ isVideo T = isVideo This
  /\ _supercompressionGlobalData (_private T)
     = _supercompressionGlobalData (_private This)
  /\ _sgdByteLength (_private T) = _sgdByteLength (_private This).
Proof.
  intros Hdata Hok.
  destruct (TranscodeBasis_success_shape g This fmt flags Hdata Hok)
    as (vk & idx & data & Hvk & ->).
  simpl. repeat split.
Qed.

(** X18: a texture cannot be transcoded twice.  After a successful call,
    if the DFD the factory made for the new format does not give the UASTC
    colour model, any further call is turned down with
    [KTX_INVALID_OPERATION] and changes nothing. *)
Theorem transcoded_texture_not_transcodable g This fmt flags g' fmt' flags' :
  is_Some (pData This) ->
  to_result (ktxTexture2_TranscodeBasis g This fmt flags) = KTX_SUCCESS ->
  (forall vk,
     KHR_DFDVAL_MODEL
       (drop 1 (deref_dfd
                  (pDfd (ktxTexture2_Create (make_createInfo This vk)).2)))
     <> KHR_DF_MODEL_UASTC) ->
  let T := to_This (ktxTexture2_TranscodeBasis g This fmt flags) in
  let o' := ktxTexture2_TranscodeBasis g' T fmt' flags' in
  to_result o' = KTX_INVALID_OPERATION /\ to_This o' = T /\ to_events o' = [].
Proof.
  intros Hdata Hok Hmodel.
  destruct (TranscodeBasis_success_shape g This fmt flags Hdata Hok)
    as (vk & idx & data & Hvk & ->).
  simpl. unfold ktxTexture2_TranscodeBasis at 1 2 3.
  simpl pDfd. simpl supercompressionScheme.
  specialize (Hmodel vk). apply Z.eqb_neq in Hmodel. rewrite Hmodel.
  simpl. auto.
Qed.

End Frame.

(** ** More on the ETC1S worker, and textures without levels *)

Lemma level_loop_count_none (This : ktxTexture2) :
  numLevels This = 0 \/ 2 ^ 31 < numLevels This < 2 ^ 32 ->
  level_loop_count This = O.
Proof.
  unfold level_loop_count, to_int32, u32. intros [Hn|Hn].
  - rewrite Hn. reflexivity.
  - rewrite (Z.mod_small (numLevels This - 1)) by lia.
    destruct (_ <? _) eqn:Hlt; [apply Z.ltb_lt in Hlt|]; lia.
Qed.

Lemma u64_divide (a x : Z) : (a | 2 ^ 64) -> (a | x) -> (a | u64 x).
Proof.
  intros Ha Hx. unfold u64.
  rewrite Z.mod_eq by lia. apply Z.divide_sub_r; [exact Hx|].
  now apply Z.divide_mul_l.
Qed.

Section Etc1sMore.
Context {Hdr : KtxHeaders} {Lib : KtxLib} {Engine : BasisTranscoder}.
Variables (This : ktxTexture2) (hasAlpha : bool) (prototype : ktxTexture2)
          (outputFormat : ktx_transcode_fmt_e) (transcodeFlags : Z).

(** X19: when the required level alignment divides 2^64 (as the powers of
    two do), a successful run of the ETC1S worker puts every level at an
    offset that is a multiple of it. *)
Theorem etc1s_level_offsets_aligned (l : nat) (e : ktxLevelIndexEntry) :
  let xc := ktxTexture2_transcodeEtc1s This hasAlpha prototype outputFormat
              transcodeFlags in
  (_requiredLevelAlignment (_private prototype) | 2 ^ 64) ->
  xc_result xc = KTX_SUCCESS ->
  (level_loop_count This <= length (_levelIndex (_private prototype)))%nat ->
  (l < level_loop_count This)%nat ->
  _levelIndex (_private (xc_prototype xc)) !! l = Some e ->
  (_requiredLevelAlignment (_private prototype) | byteOffset e).
Proof.
  intros xc Halign Hok Hlen Hl He.
  pose proof (etc1s_level_index_laid_out This hasAlpha prototype outputFormat
                transcodeFlags Hok Hlen l ltac:(lia)) as (e' & He' & _ & Hoff).
  fold xc in He'. rewrite He in He'. injection He' as <-.
  rewrite Hoff. unfold offset_after.
  destruct (decide _); [apply Z.divide_0_r|].
  match goal with
  | |- context [?idx !! Datatypes.S l] => destruct (idx !! Datatypes.S l)
  end; [|apply Z.divide_0_r].
  apply u64_divide; [exact Halign|apply KTX_PADN_multiple].
Qed.

(** The events of the image and level loops extend the events they
    started with by per-image calls only. *)
Lemma etc1s_image_body_extends ev0 level levelOffset size image s :
  (exists rest, il_events s = ev0 ++ rest
                /\ Forall is_etc1s_image_event rest) ->
  exists rest,
    il_events (etc1s_image_body This hasAlpha prototype outputFormat
                 transcodeFlags level levelOffset size image s).2
    = ev0 ++ rest
    /\ Forall is_etc1s_image_event rest.
Proof.
  intros (rest & Hev & Hall). unfold etc1s_image_body.
  destruct (hasAlpha && _); [simpl; eauto|].
  destruct (etc1s_transcode_image _ _ _ _) as [result data].
  destruct (decide _); simpl; rewrite Hev, <- app_assoc;
    eexists; (split; [reflexivity|]);
    apply Forall_app; split; auto; repeat constructor.
Qed.

Lemma etc1s_levels_extend ev0 :
  exists rest,
    ll_events (etc1s_levels This hasAlpha prototype outputFormat
                 transcodeFlags ev0).2 = ev0 ++ rest
    /\ Forall is_etc1s_image_event rest.
Proof.
  unfold etc1s_levels.
  pose (P := fun (evs : list engine_event) =>
               exists rest, evs = ev0 ++ rest
                            /\ Forall is_etc1s_image_event rest).
  assert (Himg : forall level off size n i s,
            P (il_events s) ->
            P (il_events
                 (loop_up (etc1s_image_body This hasAlpha prototype
                             outputFormat transcodeFlags level off size)
                    n i s).2)).
  { intros level off size n. induction n as [|n IH]; intros i s HP; simpl;
      [exact HP|].
    pose proof (etc1s_image_body_extends ev0 level off size i s HP) as Hb.
    destruct (etc1s_image_body _ _ _ _ _ _ _ _ i s) as [[e|] s'];
      simpl in *; [exact Hb|]. now apply IH. }
  assert (Hlvl : forall n s,
            P (ll_events s) ->
            P (ll_events
                 (loop_down (etc1s_level_body This hasAlpha prototype
                               outputFormat transcodeFlags) n s).2)).
  { intros n. induction n as [|n IH]; intros s HP; simpl; [exact HP|].
    unfold etc1s_level_body at 1.
    match goal with
    | |- context [loop_up ?b ?m ?i ?s0] =>
        pose proof (Himg (Z.of_nat n)
                      (ktxTexture2_levelDataOffset This (Z.of_nat n))
                      (ktxTexture2_GetImageSize prototype (Z.of_nat n))
                      m i s0 HP) as Hil;
        destruct (loop_up b m i s0) as [[e|] il]
    end; simpl in *; [exact Hil|]. now apply IH. }
  apply Hlvl. exists []. simpl. rewrite app_nil_r. auto.
Qed.

(** X20: once the global data has passed the two checks, the ETC1S worker
    decodes the palettes and then the tables, from the addresses the
    header gives, exactly once, before any image; everything it asks of
    the engine after that is a per-image call. *)
Theorem etc1s_decodes_once_before_images :
  let bgdh :=
    bgd_header (deref_bgd (_supercompressionGlobalData (_private This))) in
  let imageCount := firstImages This (Z.to_nat (numLevels This)) in
  endpointsByteLength bgdh <> 0 -> selectorsByteLength bgdh <> 0 ->
  tablesByteLength bgdh <> 0 ->
  u64 (BGD_TABLES_ADDR 0 bgdh imageCount + tablesByteLength bgdh)
  <= _sgdByteLength (_private This) ->
  exists rest,
    xc_events (ktxTexture2_transcodeEtc1s This hasAlpha prototype
                 outputFormat transcodeFlags)
    = [Ev_decode_palettes (endpointCount bgdh)
         (BGD_ENDPOINTS_ADDR 0 imageCount) (endpointsByteLength bgdh)
         (selectorCount bgdh) (BGD_SELECTORS_ADDR 0 bgdh imageCount)
         (selectorsByteLength bgdh);
       Ev_decode_tables (BGD_TABLES_ADDR 0 bgdh imageCount)
         (tablesByteLength bgdh)] ++ rest
    /\ Forall is_etc1s_image_event rest.
Proof.
  intros bgdh imageCount He Hs Ht Hfit.
  unfold ktxTexture2_transcodeEtc1s. fold bgdh. fold imageCount.
  apply Z.eqb_neq in He, Hs, Ht. rewrite He, Hs, Ht. simpl.
  destruct (_ >? _) eqn:Hgt.
  { rewrite Z.gtb_ltb in Hgt. apply Z.ltb_lt in Hgt. lia. }
  match goal with
  | |- context [etc1s_levels _ _ _ _ _ ?evs] =>
      pose proof (etc1s_levels_extend evs) as Hext;
      destruct (etc1s_levels This hasAlpha prototype outputFormat
                  transcodeFlags evs) as [r s]
  end. simpl in *. exact Hext.
Qed.

(** X21: a texture that declares no level, or more than 2^31 of them, is
    run through without a single per-image call: the UASTC worker returns
    [KTX_SUCCESS] and the prototype unchanged, and the ETC1S worker makes
    no per-image call and leaves the prototype unchanged too. *)
Theorem no_levels_no_image_calls :
  numLevels This = 0 \/ 2 ^ 31 < numLevels This < 2 ^ 32 ->
  ktxTexture2_transcodeUastc This hasAlpha prototype outputFormat
    transcodeFlags = mkXcode KTX_SUCCESS prototype []
  /\ etc1s_call_ids
       (xc_events (ktxTexture2_transcodeEtc1s This hasAlpha prototype
                     outputFormat transcodeFlags)) = []
  /\ xc_prototype (ktxTexture2_transcodeEtc1s This hasAlpha prototype
                     outputFormat transcodeFlags) = prototype.
Proof.
  intros Hn. apply level_loop_count_none in Hn.
  unfold ktxTexture2_transcodeUastc, ktxTexture2_transcodeEtc1s, etc1s_levels.
  rewrite Hn. simpl. rewrite set_prototype_same.
  split; [reflexivity|].
  destruct (negb _); [auto|]. destruct (_ >? _); auto.
Qed.

End Etc1sMore.

(** ** More on the entry point *)

Section Targets.
Context {Hdr : KtxHeaders} {Lib : KtxLib} {Engine : BasisTranscoder}.

Lemma etc1s_events_target This hasAlpha prototype fmt flags :
  Forall (event_targets fmt)
    (xc_events (ktxTexture2_transcodeEtc1s This hasAlpha prototype fmt flags)).
Proof.
  unfold ktxTexture2_transcodeEtc1s.
  destruct (negb _); [constructor|]. destruct (_ >? _); [constructor|].
  assert (Himg : forall level off size n i s,
            Forall (event_targets fmt) (il_events s) ->
            Forall (event_targets fmt)
              (il_events
                 (loop_up (etc1s_image_body This hasAlpha prototype fmt flags
                             level off size) n i s).2)).
  { intros level off size n. induction n as [|n IH]; intros i s HP; simpl;
      [exact HP|].
    unfold etc1s_image_body at 1.
    destruct (hasAlpha && _); [exact HP|].
    destruct (etc1s_transcode_image _ _ _ _) as [result data].
    destruct (decide _); simpl.
    - apply IH. simpl. apply Forall_app. split; [exact HP|].
      repeat constructor.
    - apply Forall_app. split; [exact HP|]. repeat constructor. }
  assert (Hlvl : forall n s,
            Forall (event_targets fmt) (ll_events s) ->
            Forall (event_targets fmt)
              (ll_events
                 (loop_down (etc1s_level_body This hasAlpha prototype fmt
                               flags) n s).2)).
  { intros n. induction n as [|n IH]; intros s HP; simpl; [exact HP|].
    unfold etc1s_level_body at 1.
    match goal with
    | |- context [loop_up ?b ?m ?i ?s0] =>
        pose proof (Himg (Z.of_nat n)
                      (ktxTexture2_levelDataOffset This (Z.of_nat n))
                      (ktxTexture2_GetImageSize prototype (Z.of_nat n))
                      m i s0 HP) as Hil;
        destruct (loop_up b m i s0) as [[e|] il]
    end; simpl in *; [exact Hil|]. now apply IH. }
  unfold etc1s_levels.
  match goal with
  | |- context [loop_down ?b ?n ?s0] =>
      pose proof (Hlvl n s0) as Hall;
      destruct (loop_down b n s0) as [r s]
  end. simpl in *. apply Hall. repeat constructor.
Qed.

Lemma uastc_events_target This hasAlpha prototype fmt flags :
  Forall (event_targets fmt)
    (xc_events (ktxTexture2_transcodeUastc This hasAlpha prototype fmt flags)).
Proof.
  unfold ktxTexture2_transcodeUastc.
  assert (Himg : forall level off szIn szOut n i s,
            Forall (event_targets fmt) (il_events s) ->
            Forall (event_targets fmt)
              (il_events
                 (loop_up (uastc_image_body This hasAlpha fmt flags level off
                             szIn szOut) n i s).2)).
  { intros level off szIn szOut n.
    induction n as [|n IH]; intros i s HP; simpl; [exact HP|].
    unfold uastc_image_body at 1.
    destruct (uastc_transcode_image _ _ _) as [result data].
    apply IH. simpl. apply Forall_app. split; [exact HP|].
    repeat constructor. }
  assert (Hlvl : forall n s,
            Forall (event_targets fmt) (ll_events s) ->
            Forall (event_targets fmt)
              (ll_events
                 (loop_down (uastc_level_body This hasAlpha prototype fmt
                               flags) n s).2)).
  { intros n. induction n as [|n IH]; intros s HP; simpl; [exact HP|].
    unfold uastc_level_body at 1.
    match goal with
    | |- context [loop_up ?b ?m ?i ?s0] =>
        pose proof (Himg (Z.of_nat n)
                      (ktxTexture2_levelDataOffset This (Z.of_nat n))
                      (ktxTexture_calcImageSize This (Z.of_nat n))
                      (ktxTexture_calcImageSize prototype (Z.of_nat n))
                      m i s0 HP) as Hil;
        destruct (loop_up b m i s0) as [r il]
    end; simpl in *. now apply IH. }
  match goal with
  | |- context [loop_down ?b ?n ?s0] =>
      pose proof (Hlvl n s0) as Hall;
      destruct (loop_down b n s0) as [r s]
  end. simpl in *. apply Hall. constructor.
Qed.

(** X22: the engine is only ever asked for the target the first switch
    settled on, worked out from the texture as it was passed in: every
    per-image call of a run of the entry point names it, so none names an
    automatic choice, and none a PVRTC RGBA target when the source has no
    alpha. *)
Theorem engine_asked_for_resolved_target g This fmt flags :
  Forall (event_targets (map_outputFormat (source_hasAlpha This) fmt))
    (to_events (ktxTexture2_TranscodeBasis g This fmt flags)).
Proof.
  unfold ktxTexture2_TranscodeBasis.
  destruct (negb (KHR_DFDVAL_MODEL _ =? _) && _); [constructor|].
  destruct (bool_decide _ && (_ || _)); [constructor|].
  destruct (negb (Z.land _ _ =? 0)); [constructor|].
  destruct ((bool_decide _ || bool_decide _) && _); [constructor|].
  destruct (select_vkFormat _ _) as [vk|]; [|constructor].
  destruct (ktxTexture2_Create _) as [result prototype].
  destruct (negb (bool_decide (result = KTX_SUCCESS))); [constructor|].
  destruct (ensure_data This) as [[e|] This1]; [constructor|]. simpl.
  apply Forall_app. split.
  - destruct (transcoderInitialized g); repeat constructor.
  - destruct (bool_decide _);
      [apply etc1s_events_target|apply uastc_events_target].
Qed.

(** X23: a texture without image data and without a load pending is never
    transcoded: the call fails, returns the texture as it came and asks
    nothing of the engine, not even its initialisation. *)
Theorem missing_data_rejected g This fmt flags :
  pData This = None -> ktxTexture_isActiveStream This = false ->
  let o := ktxTexture2_TranscodeBasis g This fmt flags in
  to_result o <> KTX_SUCCESS /\ to_This o = This /\ to_events o = [].
Proof.
  intros Hd Hs. unfold ktxTexture2_TranscodeBasis.
  destruct (negb (KHR_DFDVAL_MODEL _ =? _) && _);
    [simpl; repeat split; discriminate|].
  destruct (bool_decide _ && (_ || _)); [simpl; repeat split; discriminate|].
  destruct (negb (Z.land _ _ =? 0)); [simpl; repeat split; discriminate|].
  destruct ((bool_decide _ || bool_decide _) && _);
    [simpl; repeat split; discriminate|].
  destruct (select_vkFormat _ _) as [vk|];
    [|simpl; repeat split; discriminate].
  destruct (ktxTexture2_Create _) as [result prototype].
  destruct (negb (bool_decide (result = KTX_SUCCESS))) eqn:Hres.
  { simpl. repeat split. intros ->. discriminate Hres. }
  unfold ensure_data. rewrite Hd, Hs. simpl. repeat split. discriminate.
Qed.

(** X24: a pending load that fails ends the call with the error of
    [ktxTexture2_LoadImageData], unless an earlier check failed; either
    way the call does not succeed and the engine is asked nothing. *)
Theorem failed_load_ends_call g This fmt flags :
  pData This = None ->
  (ktxTexture2_LoadImageData This).1 <> KTX_SUCCESS ->
  let o := ktxTexture2_TranscodeBasis g This fmt flags in
  to_result o <> KTX_SUCCESS /\ to_events o = [].
Proof.
  intros Hd Hl. unfold ktxTexture2_TranscodeBasis.
  destruct (negb (KHR_DFDVAL_MODEL _ =? _) && _);
    [simpl; split; [discriminate|reflexivity]|].
  destruct (bool_decide _ && (_ || _));
    [simpl; split; [discriminate|reflexivity]|].
  destruct (negb (Z.land _ _ =? 0));
    [simpl; split; [discriminate|reflexivity]|].
  destruct ((bool_decide _ || bool_decide _) && _);
    [simpl; split; [discriminate|reflexivity]|].
  destruct (select_vkFormat _ _) as [vk|];
    [|simpl; split; [discriminate|reflexivity]].
  destruct (ktxTexture2_Create _) as [result prototype].
  destruct (negb (bool_decide (result = KTX_SUCCESS))) eqn:Hres.
  { simpl. split; [|reflexivity]. intros ->. discriminate Hres. }
  unfold ensure_data. rewrite Hd.
  destruct (ktxTexture_isActiveStream This);
    [|simpl; split; [discriminate|reflexivity]].
  destruct (ktxTexture2_LoadImageData This) as [r T]. simpl in Hl.
  rewrite decide_False by exact Hl. simpl. auto.
Qed.

(** X25: with the decode-to-next-power-of-two flag set no call succeeds,
    whatever the target and the texture: the result is
    [KTX_UNSUPPORTED_FEATURE], or [KTX_INVALID_OPERATION] from the two
    checks before it; the texture is returned as it came. *)
Theorem next_pow2_flag_rejected g This fmt flags :
  Z.land flags KTX_TF_PVRTC_DECODE_TO_NEXT_POW2 <> 0 ->
  let o := ktxTexture2_TranscodeBasis g This fmt flags in
  (to_result o = KTX_UNSUPPORTED_FEATURE
   \/ to_result o = KTX_INVALID_OPERATION)
  /\ to_This o = This /\ to_events o = [].
Proof.
  intros Hfl. unfold ktxTexture2_TranscodeBasis.
  destruct (negb (KHR_DFDVAL_MODEL _ =? _) && _); [simpl; auto|].
  destruct (bool_decide _ && (_ || _)); [simpl; auto|].
  apply Z.eqb_neq in Hfl. rewrite Hfl. simpl. auto.
Qed.

End Targets.

(** ** The further properties on concrete textures *)

Section MoreRuns.
Import Fixture FixtureMore.

Lemma transcodable_source_witness :
  to_result (@ktxTexture2_TranscodeBasis headers lib (engine KTX_SUCCESS)
               (mkGlobals false) uastc_3x3 KTX_TTF_PVRTC1_4_RGB 2)
  <> KTX_INVALID_OPERATION
  /\ ((supercompressionScheme uastc_3x3 = KTX_SS_BASIS_UNIVERSAL
       /\ is_Some (_supercompressionGlobalData (_private uastc_3x3))
       /\ _sgdByteLength (_private uastc_3x3) <> 0)
      \/ (supercompressionScheme uastc_3x3 <> KTX_SS_BASIS_UNIVERSAL
          /\ @KHR_DFDVAL_MODEL headers (drop 1 (deref_dfd (pDfd uastc_3x3)))
             = @KHR_DF_MODEL_UASTC headers)).
Proof.
  assert (Hne :
    to_result (@ktxTexture2_TranscodeBasis headers lib (engine KTX_SUCCESS)
                 (mkGlobals false) uastc_3x3 KTX_TTF_PVRTC1_4_RGB 2)
    <> KTX_INVALID_OPERATION) by (vm_compute; discriminate).
  split; [exact Hne|].
  exact (@transcodable_source headers lib (engine KTX_SUCCESS)
           (mkGlobals false) uastc_3x3 KTX_TTF_PVRTC1_4_RGB 2 Hne).
Defined.

Lemma etc1s_success_calls_every_image_once_witness :
  xc_result (@ktxTexture2_transcodeEtc1s headers lib (engine KTX_SUCCESS)
               etc1s_2x2_mips false (rgb565_prototype etc1s_2x2_mips)
               KTX_TTF_RGB565 0) = KTX_SUCCESS
  /\ etc1s_call_ids
       (xc_events (@ktxTexture2_transcodeEtc1s headers lib
                     (engine KTX_SUCCESS) etc1s_2x2_mips false
                     (rgb565_prototype etc1s_2x2_mips) KTX_TTF_RGB565 0))
     = [(1, 1); (0, 0)].
Proof.
  assert (Hok :
    xc_result (@ktxTexture2_transcodeEtc1s headers lib (engine KTX_SUCCESS)
                 etc1s_2x2_mips false (rgb565_prototype etc1s_2x2_mips)
                 KTX_TTF_RGB565 0) = KTX_SUCCESS) by reflexivity.
  split; [exact Hok|].
  rewrite (@etc1s_success_calls_every_image_once headers lib
             (engine KTX_SUCCESS) etc1s_2x2_mips false
             (rgb565_prototype etc1s_2x2_mips) KTX_TTF_RGB565 0 Hok).
  reflexivity.
Defined.

Lemma etc1s_writeOffset_assertion_witness :
  let s := mkImageLoop 0 128 0 None [] in
  let run :=
    loop_up
      (@etc1s_image_body headers (engine KTX_SUCCESS)
         etc1s_alpha_two_layers false
         (rgba32_prototype etc1s_alpha_two_layers) KTX_TTF_RGBA32 0 0 0 64)
      2 0 s in
  0 <= il_writeOffset s < 2 ^ 64 /\ il_levelSizeOut s = 0
  /\ u64 (il_writeOffset s + il_levelSizeOut run.2) = il_writeOffset run.2.
Proof.
  intros s run.
  assert (Hr : 0 <= il_writeOffset s < 2 ^ 64) by (simpl; lia).
  split; [exact Hr|]. split; [reflexivity|].
  exact (@etc1s_writeOffset_assertion headers (engine KTX_SUCCESS)
           etc1s_alpha_two_layers false
           (rgba32_prototype etc1s_alpha_two_layers) KTX_TTF_RGBA32 0 0 0 64
           2 0 s run.1 run.2 Hr eq_refl (surjective_pairing run)).
Defined.

Lemma success_takes_prototype_format_witness :
  is_Some (pData etc1s_4x4)
  /\ to_result (@ktxTexture2_TranscodeBasis headers lib (engine KTX_SUCCESS)
                  (mkGlobals false) etc1s_4x4 KTX_TTF_RGBA32 0) = KTX_SUCCESS
  /\ exists vk,
       select_vkFormat (@source_srgb headers etc1s_4x4)
         (map_outputFormat (@source_hasAlpha headers lib etc1s_4x4)
            KTX_TTF_RGBA32) = Some vk
       /\ let proto :=
            (@ktxTexture2_Create lib (make_createInfo etc1s_4x4 vk)).2 in
          let T :=
            to_This (@ktxTexture2_TranscodeBasis headers lib
                       (engine KTX_SUCCESS) (mkGlobals false) etc1s_4x4
                       KTX_TTF_RGBA32 0) in
          vkFormat T = vk /\ vk <> VK_FORMAT_UNDEFINED
          /\ supercompressionScheme T = KTX_SS_NONE
          /\ isCompressed T = isCompressed proto
          /\ pDfd T = pDfd proto
          /\ dataSize T = dataSize proto
          /\ _formatSize (_protected T) = _formatSize (_protected proto)
          /\ _requiredLevelAlignment (_private T)
             = _requiredLevelAlignment (_private proto).
Proof.
  assert (Hd : is_Some (pData etc1s_4x4)) by (eexists; reflexivity).
  assert (Hok :
    to_result (@ktxTexture2_TranscodeBasis headers lib (engine KTX_SUCCESS)
                 (mkGlobals false) etc1s_4x4 KTX_TTF_RGBA32 0) = KTX_SUCCESS)
    by reflexivity.
  split; [exact Hd|]. split; [exact Hok|].
  exact (@success_takes_prototype_format headers lib (engine KTX_SUCCESS)
           (mkGlobals false) etc1s_4x4 KTX_TTF_RGBA32 0 Hd Hok).
Defined.

Lemma success_keeps_geometry_and_global_data_witness :
  let T :=
    to_This (@ktxTexture2_TranscodeBasis headers lib (engine KTX_SUCCESS)
               (mkGlobals false) etc1s_4x4 KTX_TTF_RGBA32 0) in
  baseWidth T = 4 /\ numLevels T = 1
  /\ is_Some (_supercompressionGlobalData (_private T))
  /\ _sgdByteLength (_private T) = 60.
Proof.
  assert (Hd : is_Some (pData etc1s_4x4)) by (eexists; reflexivity).
  assert (Hok :
    to_result (@ktxTexture2_TranscodeBasis headers lib (engine KTX_SUCCESS)
                 (mkGlobals false) etc1s_4x4 KTX_TTF_RGBA32 0) = KTX_SUCCESS)
    by reflexivity.
  destruct (@success_keeps_geometry_and_global_data headers lib
              (engine KTX_SUCCESS) (mkGlobals false) etc1s_4x4
              KTX_TTF_RGBA32 0 Hd Hok)
    as (Hw & _ & _ & _ & Hn & _ & _ & _ & _ & Hsgd & Hlen).
  intros T. subst T. rewrite Hw, Hn, Hsgd, Hlen.
  repeat split. eexists; reflexivity.
Defined.

Lemma transcoded_texture_not_transcodable_witness :
  let T :=
    to_This (@ktxTexture2_TranscodeBasis headers lib (engine KTX_SUCCESS)
               (mkGlobals false) etc1s_4x4 KTX_TTF_RGBA32 0) in
  let o' := @ktxTexture2_TranscodeBasis headers lib (engine KTX_SUCCESS)
              (mkGlobals false) T KTX_TTF_RGB565 0 in
  to_result o' = KTX_INVALID_OPERATION /\ to_This o' = T /\ to_events o' = [].
Proof.
  apply (@transcoded_texture_not_transcodable headers lib
           (engine KTX_SUCCESS) (mkGlobals false) etc1s_4x4 KTX_TTF_RGBA32 0
           (mkGlobals false) KTX_TTF_RGB565 0).
  - eexists; reflexivity.
  - reflexivity.
  - intros vk. vm_compute. discriminate.
Defined.

Lemma etc1s_level_offsets_aligned_witness :
  (4 | byteOffset (mkLevelIndexEntry 4 8 8)).
Proof.
  apply (@etc1s_level_offsets_aligned headers lib (engine KTX_SUCCESS)
           etc1s_2x2_mips false (rgb565_prototype etc1s_2x2_mips)
           KTX_TTF_RGB565 0 0%nat (mkLevelIndexEntry 4 8 8)).
  - exists (2 ^ 62). reflexivity.
  - reflexivity.
  - vm_compute. lia.
  - vm_compute. lia.
  - reflexivity.
Defined.

Lemma etc1s_decodes_once_before_images_witness :
  exists rest,
    xc_events (@ktxTexture2_transcodeEtc1s headers lib (engine KTX_SUCCESS)
                 etc1s_4x4 false (rgba32_prototype etc1s_4x4)
                 KTX_TTF_RGBA32 0)
    = [Ev_decode_palettes 1 36 8 1 44 8; Ev_decode_tables 52 8] ++ rest
    /\ Forall is_etc1s_image_event rest.
Proof.
  apply (@etc1s_decodes_once_before_images headers lib (engine KTX_SUCCESS)
           etc1s_4x4 false (rgba32_prototype etc1s_4x4) KTX_TTF_RGBA32 0).
  - discriminate.
  - discriminate.
  - discriminate.
  - vm_compute. discriminate.
Defined.

Lemma no_levels_no_image_calls_witness :
  @ktxTexture2_transcodeUastc lib (engine KTX_TRANSCODE_FAILED)
    uastc_no_levels false (rgb565_prototype uastc_no_levels) KTX_TTF_RGB565 0
  = mkXcode KTX_SUCCESS (rgb565_prototype uastc_no_levels) [].
Proof.
  apply (@no_levels_no_image_calls headers lib (engine KTX_TRANSCODE_FAILED)
           uastc_no_levels false (rgb565_prototype uastc_no_levels)
           KTX_TTF_RGB565 0).
  left. reflexivity.
Defined.

Lemma missing_data_rejected_witness :
  let t := unloaded uastc_3x3 0 in
  let o := @ktxTexture2_TranscodeBasis headers lib (engine KTX_SUCCESS)
             (mkGlobals false) t KTX_TTF_RGBA32 0 in
  to_result o <> KTX_SUCCESS /\ to_This o = t /\ to_events o = [].
Proof.
  apply (@missing_data_rejected headers lib (engine KTX_SUCCESS)
           (mkGlobals false) (unloaded uastc_3x3 0) KTX_TTF_RGBA32 0);
    reflexivity.
Defined.

Lemma failed_load_ends_call_witness :
  let t := unloaded uastc_3x3 1 in
  let o := @ktxTexture2_TranscodeBasis headers lib_failing_load
             (engine KTX_SUCCESS) (mkGlobals false) t KTX_TTF_RGBA32 0 in
  to_result o = KTX_FILE_READ_ERROR /\ to_events o = [].
Proof.
  destruct (@failed_load_ends_call headers lib_failing_load
              (engine KTX_SUCCESS) (mkGlobals false) (unloaded uastc_3x3 1)
              KTX_TTF_RGBA32 0 eq_refl ltac:(discriminate)) as [_ Hev].
  split; [reflexivity|exact Hev].
Defined.

Lemma next_pow2_flag_rejected_witness :
  let o := @ktxTexture2_TranscodeBasis headers lib (engine KTX_SUCCESS)
             (mkGlobals false) uastc_2x2_mips KTX_TTF_RGBA32 2 in
  (to_result o = KTX_UNSUPPORTED_FEATURE
   \/ to_result o = KTX_INVALID_OPERATION)
  /\ to_This o = uastc_2x2_mips /\ to_events o = [].
Proof.
  apply (@next_pow2_flag_rejected headers lib (engine KTX_SUCCESS)
           (mkGlobals false) uastc_2x2_mips KTX_TTF_RGBA32 2).
  vm_compute. discriminate.
Defined.

End MoreRuns.

(** ** The ETC1S worker: level index and failed calls *)

Section Etc1sIndex.
Context {Hdr : KtxHeaders} {Lib : KtxLib} {Engine : BasisTranscoder}.

(** X26: after a successful run of the ETC1S worker on a prototype whose
    level index has room for the levels, every level has an entry whose
    [byteLength] is its [uncompressedByteLength]; the highest level is at
    offset 0, and every other level starts at the end of the next higher
    level padded up to the required level alignment (in 64-bit
    arithmetic). *)
Theorem etc1s_success_level_index This hasAlpha prototype fmt flags
    (l : nat) :
  let xc := ktxTexture2_transcodeEtc1s This hasAlpha prototype fmt flags in
  let idx := _levelIndex (_private (xc_prototype xc)) in
  xc_result xc = KTX_SUCCESS ->
  (level_loop_count This <= length (_levelIndex (_private prototype)))%nat ->
  (l < level_loop_count This)%nat ->
  exists e,
    idx !! l = Some e
    /\ byteLength e = uncompressedByteLength e
    /\ (Datatypes.S l = level_loop_count This -> byteOffset e = 0)
    /\ (forall e', Datatypes.S l <> level_loop_count This ->
          idx !! Datatypes.S l = Some e' ->
          byteOffset e
          = u64 (_KTX_PADN (_requiredLevelAlignment (_private prototype))
                   (u64 (byteOffset e' + byteLength e')))).
Proof.
  intros xc idx Hok Hlen Hl.
  destruct (etc1s_level_index_laid_out This hasAlpha prototype fmt flags
              Hok Hlen l ltac:(lia)) as (e & He & Heq & Hoff).
  exists e. split; [exact He|]. split; [exact Heq|].
  unfold offset_after in Hoff. split.
  - intros HN. now rewrite decide_True in Hoff.
  - intros e' HN He'. rewrite decide_False in Hoff by exact HN.
    fold xc in Hoff. fold idx in Hoff. now rewrite He' in Hoff.
Qed.

(** X27: on the ETC1S path a per-image call that fails is the last thing
    asked of the engine, and the worker returns its error unchanged. *)
Theorem etc1s_failed_call_is_last This hasAlpha prototype fmt flags
    evs1 image call r evs2 :
  xc_events (ktxTexture2_transcodeEtc1s This hasAlpha prototype fmt flags)
  = evs1 ++ Ev_etc1s_transcode_image image call r :: evs2 ->
  r <> KTX_SUCCESS ->
  evs2 = []
  /\ xc_result (ktxTexture2_transcodeEtc1s This hasAlpha prototype fmt flags)
     = r.
Proof. apply etc1s_engine_error_aborts. Qed.

End Etc1sIndex.

Section IndexRuns.
Import Fixture FixtureMore.

Lemma etc1s_success_level_index_witness :
  exists e,
    _levelIndex
      (_private
         (xc_prototype
            (@ktxTexture2_transcodeEtc1s headers lib (engine KTX_SUCCESS)
               etc1s_2x2_mips false (rgb565_prototype etc1s_2x2_mips)
               KTX_TTF_RGB565 0))) !! 0%nat = Some e
    /\ byteLength e = uncompressedByteLength e
    /\ (1%nat = level_loop_count etc1s_2x2_mips -> byteOffset e = 0)
    /\ (forall e', 1%nat <> level_loop_count etc1s_2x2_mips ->
          _levelIndex
            (_private
               (xc_prototype
                  (@ktxTexture2_transcodeEtc1s headers lib
                     (engine KTX_SUCCESS) etc1s_2x2_mips false
                     (rgb565_prototype etc1s_2x2_mips) KTX_TTF_RGB565 0)))
          !! 1%nat = Some e' ->
          byteOffset e
          = u64 (_KTX_PADN
                   (_requiredLevelAlignment
                      (_private (rgb565_prototype etc1s_2x2_mips)))
                   (u64 (byteOffset e' + byteLength e')))).
Proof.
  apply (@etc1s_success_level_index headers lib (engine KTX_SUCCESS)
           etc1s_2x2_mips false (rgb565_prototype etc1s_2x2_mips)
           KTX_TTF_RGB565 0 0%nat).
  - reflexivity.
  - vm_compute. lia.
  - vm_compute. lia.
Defined.

Lemma etc1s_failed_call_is_last_witness :
  xc_result
    (@ktxTexture2_transcodeEtc1s headers lib (engine KTX_TRANSCODE_FAILED)
       etc1s_alpha_two_layers true (rgba32_prototype etc1s_alpha_two_layers)
       KTX_TTF_RGBA32 0)
  = KTX_TRANSCODE_FAILED.
Proof.
  apply (@etc1s_failed_call_is_last headers lib
           (engine KTX_TRANSCODE_FAILED) etc1s_alpha_two_layers true
           (rgba32_prototype etc1s_alpha_two_layers) KTX_TTF_RGBA32 0
           [Ev_decode_palettes 1 52 8 1 60 8; Ev_decode_tables 68 8] 0
           {| ec_imageDesc := mkBasisImageDesc 0 4 4 4;
              ec_outputFormat := KTX_TTF_RGBA32;
              ec_writeOffset := 0;
              ec_bufferByteLength := 128;
              ec_level := 0;
              ec_levelOffset := 0;
              ec_width := 4;
              ec_height := 4;
              ec_num_blocks_x := 1;
              ec_num_blocks_y := 1;
              ec_isVideo := false;
              ec_transcodeAlphaToOpaqueFormats := false |}
           KTX_TRANSCODE_FAILED []).
  - reflexivity.
  - discriminate.
Defined.

End IndexRuns.

(** ** When the ETC1S worker succeeds *)

Section LoopsRunOn.
Context {S : Type}.
Implicit Types (body : Z -> S -> option KTX_error_code * S).



End LoopsRunOn.

Section Etc1sSuccess.
Context {Hdr : KtxHeaders} {Lib : KtxLib} {Engine : BasisTranscoder}.


End Etc1sSuccess.

Section SuccessRuns.
Import Fixture FixtureMore.


End SuccessRuns.
